(** * AI Code Explainer: a shallow embedding of [app.py]

    The program is a Streamlit script.  Every interaction of the user
    re-runs [main] from the top against the per-session store
    [st.session_state]; [explain_code] builds one prompt and makes one
    call to the Groq chat-completion client.

    Conventions of the embedding:
    - Python [str] is [string], the UTF-8 bytes of its code points; a
      literal of the source is the literal with the same bytes, and a
      [string] that is not well-formed UTF-8 stands for no Python text.
      [Py.strip] removes every code point that [str.isspace()] accepts,
      the ones above U+007F included.  [Py.lower] and [Py.repr] follow
      CPython on ASCII characters and leave bytes above 127 as they
      are.
    - [st.session_state] is a [gmap string string].
    - A script run is a computation in the monad [M]: it reads and
      writes the session store, appends to the trace of toolkit calls
      and either returns a value or raises.
    - What the toolkit and the Groq SDK hand to the script (secret,
      widget values, clicked button, answers of the remote endpoint) is
      the record [frontend] and the function type [client]. *)

From stdpp Require Import gmap strings list fin_maps.
From Stdlib Require Import Ascii QArith.

Close Scope Q_scope.

(** ** Python strings *)

Module Py.

Definition chr (n : nat) : string := String (Ascii.ascii_of_nat n) "".

(** Characters the source needs and a Rocq literal cannot hold. *)
Definition nl : string := chr 10.
Definition dq : string := chr 34.

Definition ord (c : ascii) : nat := Ascii.nat_of_ascii c.

(** [str.lower], one character at a time. *)
Definition lower_char (c : ascii) : ascii :=
  if (65 <=? ord c) && (ord c <=? 90)
  then Ascii.ascii_of_nat (ord c + 32) else c.

Fixpoint lower (s : string) : string :=
  match s with
  | EmptyString => EmptyString
  | String c s' => String (lower_char c) (lower s')
  end.

(** The code points that [str.isspace()] accepts, and that
    [str.strip()] therefore removes: TAB, LF, VT, FF, CR, FS, GS, RS, US
    and space; NEL, NO-BREAK SPACE, OGHAM SPACE MARK, EN QUAD to HAIR
    SPACE, LINE and PARAGRAPH SEPARATOR, NARROW NO-BREAK SPACE, MEDIUM
    MATHEMATICAL SPACE and IDEOGRAPHIC SPACE. *)
Definition whitespace : list N :=
  [ 0x09; 0x0A; 0x0B; 0x0C; 0x0D; 0x1C; 0x1D; 0x1E; 0x1F; 0x20;
    0x85; 0xA0; 0x1680;
    0x2000; 0x2001; 0x2002; 0x2003; 0x2004; 0x2005; 0x2006; 0x2007; 0x2008;
    0x2009; 0x200A;
    0x2028; 0x2029; 0x202F; 0x205F; 0x3000 ]%N.

Definition isspace (cp : N) : bool := existsb (N.eqb cp) whitespace.

Definition byte (n : N) : ascii := Ascii.ascii_of_N n.

(** [chr(cp).encode()]: the UTF-8 bytes of one code point. *)
Definition utf8 (cp : N) : string :=
  if (cp <? 0x80)%N then String (byte cp) ""
  else if (cp <? 0x800)%N then
    String (byte (0xC0 + cp / 0x40))
      (String (byte (0x80 + cp mod 0x40)) "")
  else if (cp <? 0x10000)%N then
    String (byte (0xE0 + cp / 0x1000))
      (String (byte (0x80 + (cp / 0x40) mod 0x40))
         (String (byte (0x80 + cp mod 0x40)) ""))
  else
    String (byte (0xF0 + cp / 0x40000))
      (String (byte (0x80 + (cp / 0x1000) mod 0x40))
         (String (byte (0x80 + (cp / 0x40) mod 0x40))
            (String (byte (0x80 + cp mod 0x40)) ""))).

(** The bytes of a text, code point after code point. *)
Fixpoint encode (cps : list N) : string :=
  match cps with
  | [] => ""
  | cp :: cps' => utf8 cp +:+ encode cps'
  end.

(** The byte sequences that stand for one whitespace code point; they
    are one, two or three bytes long. *)
Definition spaces : list string := List.map utf8 whitespace.

Definition is_space (bytes : string) : bool :=
  existsb (String.eqb bytes) spaces.

(** [str.lstrip()]: whitespace code points are dropped from the left
    until the text starts with another one. *)
Fixpoint lstrip (s : string) : string :=
  match s with
  | EmptyString => EmptyString
  | String a s1 =>
      if is_space (String a "") then lstrip s1
      else
        match s1 with
        | EmptyString => s
        | String b s2 =>
            if is_space (String a (String b "")) then lstrip s2
            else
              match s2 with
              | EmptyString => s
              | String c s3 =>
                  if is_space (String a (String b (String c "")))
                  then lstrip s3 else s
              end
        end
  end.

(** [str.rstrip()]: the longest tail made of whitespace code points
    only is dropped. *)
Fixpoint rstrip (s : string) : string :=
  match s with
  | EmptyString => EmptyString
  | String c s' =>
      match lstrip s with
      | EmptyString => EmptyString
      | _ => String c (rstrip s')
      end
  end.

Definition strip (s : string) : string := rstrip (lstrip s).

(** Truth value of a string: [bool(s)]. *)
Definition truthy (s : string) : bool :=
  match s with EmptyString => false | _ => true end.

Fixpoint mem_char (c : ascii) (s : string) : bool :=
  match s with
  | EmptyString => false
  | String d s' => (ord c =? ord d) || mem_char c s'
  end.

Definition hex_digit (n : nat) : ascii :=
  Ascii.ascii_of_nat (if n <? 10 then 48 + n else 87 + n).

Definition backslash : ascii := Ascii.ascii_of_nat 92.

(** [repr] of one character of a string that is quoted with [q]. *)
Definition repr_char (q : ascii) (c : ascii) : string :=
  let n := ord c in
  if (n =? ord q) || (n =? 92) then String backslash (String c "")
  else if n =? 9 then String backslash "t"
  else if n =? 10 then String backslash "n"
  else if n =? 13 then String backslash "r"
  else if (n <? 32) || (n =? 127)
       then String backslash
              (String "x" (String (hex_digit (n / 16))
                             (String (hex_digit (n mod 16)) "")))
  else String c "".

Fixpoint repr_body (q : ascii) (s : string) : string :=
  match s with
  | EmptyString => EmptyString
  | String c s' => repr_char q c +:+ repr_body q s'
  end.

(** [repr(s)]: single quotes, unless [s] has a single quote and no
    double quote. *)
Definition repr (s : string) : string :=
  let sq := Ascii.ascii_of_nat 39 in
  let dq := Ascii.ascii_of_nat 34 in
  let q := if mem_char sq s && negb (mem_char dq s) then dq else sq in
  String q (repr_body q s +:+ String q "").

(** [sep.join(l)]. *)
Fixpoint join (sep : string) (l : list string) : string :=
  match l with
  | [] => ""
  | [x] => x
  | x :: l' => x +:+ sep +:+ join sep l'
  end.

End Py.

(** ** Exceptions, the session store and the script monad *)

(** The exceptions that occur in a run of the script.  [Fault detail]
    stands for any [Exception] the Groq SDK raises (connection,
    authentication, status and response-validation errors are all
    subclasses of [Exception]); [detail] is its [str(e)].
    [RerunException] is what [st.rerun()] raises to stop the script; it
    derives from [BaseException], not from [Exception]. *)
Inductive exn : Type :=
| KeyError (key : string)
| IndexError
| Fault (detail : string)
| RerunException.

Definition is_Exception (e : exn) : bool :=
  match e with
  | RerunException => false
  | _ => true
  end.

(** [str(e)]. *)
Definition str (e : exn) : string :=
  match e with
  | KeyError key => Py.repr key
  | IndexError => "list index out of range"
  | Fault detail => detail
  | RerunException => ""
  end.

(** *** The remote endpoint *)

Record message : Type := { role : string; content : string }.

Record request : Type := {
  messages : list message;
  model : string;
  temperature : Q;
  max_tokens : Z
}.

(** The completion object: a list of choices, each with a message whose
    content is a text. *)
Record choice : Type := { choice_message : message }.
Record chat_completion : Type := { choices : list choice }.

(** [client.chat.completions.create]: either raises a fault or returns
    a completion. *)
Definition client : Type := request -> string + chat_completion.

(** *** Toolkit calls, as they appear in the trace of a run.
    [call_explain_code] marks the entry into [explain_code].  The
    widgets that only hand a value to the script ([st.selectbox],
    [st.button], [st.columns]) leave no event: the trace records what
    a run writes to the page and sends out, not every widget drawn. *)
Inductive event : Type :=
| st_markdown (body : string) (unsafe_allow_html : bool)
| st_header (body : string)
| st_success (body : string)
| st_warning (body : string)
| st_error (body : string)
| st_spinner (text : string)
| st_text_area (value : string)
| call_explain_code (code_snippet programming_language complexity_level : string)
| chat_completions_create (req : request).

Abbreviation session_state := (gmap string string).

Inductive outcome (A : Type) : Type :=
| Return (a : A)
| Raise (e : exn).
Arguments Return {A} a.
Arguments Raise {A} e.

Definition M (A : Type) : Type :=
  session_state -> outcome A * session_state * list event.

Definition ret {A} (a : A) : M A := fun ss => (Return a, ss, []).

Definition bind {A B} (m : M A) (k : A -> M B) : M B :=
  fun ss =>
    match m ss with
    | (Return a, ss1, out1) =>
        match k a ss1 with
        | (r, ss2, out2) => (r, ss2, out1 ++ out2)
        end
    | (Raise e, ss1, out1) => (Raise e, ss1, out1)
    end.

Notation "x <- m ;; k" := (bind m (fun x => k))
  (at level 100, m at next level, right associativity).
Notation "m ;;; k" := (bind m (fun _ => k))
  (at level 100, right associativity).

Definition raise {A} (e : exn) : M A := fun ss => (Raise e, ss, []).

Definition emit (ev : event) : M unit := fun ss => (Return tt, ss, [ev]).

(** [try: body except Exception as e: handler e]. *)
Definition try_except {A} (body : M A) (handler : exn -> M A) : M A :=
  fun ss =>
    match body ss with
    | (Raise e, ss1, out1) =>
        if is_Exception e then
          match handler e ss1 with
          | (r, ss2, out2) => (r, ss2, out1 ++ out2)
          end
        else (Raise e, ss1, out1)
    | r => r
    end.

(** [if c: body] with no [else]. *)
Definition when (c : bool) (body : M unit) : M unit :=
  if c then body else ret tt.

(** [st.session_state.get(key)]: [None] stands for Python's [None]. *)
Definition session_get (key : string) : M (option string) :=
  fun ss => (Return (ss !! key), ss, []).

(** [st.session_state[key] = v]. *)
Definition session_set (key v : string) : M unit :=
  fun ss => (Return tt, <[key := v]> ss, []).

(** [d[key]] on a dict. *)
Definition dict_getitem (d : gmap string string) (key : string) : M string :=
  match d !! key with
  | Some v => ret v
  | None => raise (KeyError key)
  end.

(** [l[0]] on a list. *)
Definition list_getitem0 {A} (l : list A) : M A :=
  match l with
  | x :: _ => ret x
  | [] => raise IndexError
  end.

(** Truth value of an optional string: [None] and [''] are false. *)
Definition truthy (v : option string) : bool :=
  match v with
  | Some s => Py.truthy s
  | None => false
  end.

(** ** [explain_code] *)

(** The dict literal of lines 65-69. *)
Definition complexity_prompts : gmap string string :=
  <["Beginner" := "Explain this code in very simple terms, as if talking to someone who just started programming. Use everyday language and avoid technical jargon."]>
  (<["Intermediate" := "Explain this code clearly, including the main concepts and how different parts work together. Use some technical terms but explain them."]>
  (<["Advanced" := "Provide a detailed technical explanation of this code, including algorithms, design patterns, and performance considerations."]>
   ∅)).

(** The f-string of lines 71-88 is a sequence of literal parts and
    replacement fields. *)
Inductive field : Type :=
| f_instruction      (* complexity_prompts[complexity_level] *)
| f_language         (* programming_language *)
| f_language_lower   (* programming_language.lower() *)
| f_code_snippet.    (* code_snippet *)

Inductive part : Type :=
| Lit (s : string)
| Fld (f : field).

(** Every line of the literal starts with the eight blanks of the
    source's indentation, the empty-looking ones too. *)
Definition ind : string := "        ".
Definition br : string := Py.nl +:+ ind.

Definition prompt_template : list part :=
  [ Lit br;
    Fld f_instruction;
    Lit (br +:+ br +:+ "Programming Language: ");
    Fld f_language;
    Lit (br +:+ br +:+ "Code to explain:" +:+ br +:+ "```");
    Fld f_language_lower;
    Lit br;
    Fld f_code_snippet;
    Lit (br +:+ "```" +:+ br
         +:+ br +:+ "Please provide:"
         +:+ br +:+ "1. A brief overview of what the code does"
         +:+ br +:+ "2. Step-by-step explanation of each part"
         +:+ br +:+ "3. Key concepts or techniques used"
         +:+ br +:+ "4. Any potential improvements or considerations (if applicable)"
         +:+ br
         +:+ br +:+ "Format your response in a clear, easy-to-read manner."
         +:+ br) ].

Definition fill (instruction code_snippet programming_language : string)
    (p : part) : string :=
  match p with
  | Lit s => s
  | Fld f_instruction => instruction
  | Fld f_language => programming_language
  | Fld f_language_lower => Py.lower programming_language
  | Fld f_code_snippet => code_snippet
  end.

Fixpoint render (instruction code_snippet programming_language : string)
    (t : list part) : string :=
  match t with
  | [] => ""
  | p :: t' =>
      fill instruction code_snippet programming_language p
      +:+ render instruction code_snippet programming_language t'
  end.

Arguments render : simpl never.

Definition system_message : message :=
  {| role := "system";
     content := "You are an expert programming instructor who excels at explaining code in clear, understandable language. Always be encouraging and educational." |}.

(** The keyword arguments of the call of lines 90-104. *)
Definition create_request (prompt : string) : request :=
  {| messages := [ system_message; {| role := "user"; content := prompt |} ];
     model := "llama3-8b-8192";
     temperature := (3 # 10)%Q;
     max_tokens := 1500 |}.

(** [client.chat.completions.create(...)]: one outbound call. *)
Definition chat_completions (c : client) (req : request) : M chat_completion :=
  emit (chat_completions_create req) ;;;
  match c req with
  | inl detail => raise (Fault detail)
  | inr completion => ret completion
  end.

Definition explain_code (c : client)
    (code_snippet programming_language complexity_level : string) : M string :=
  try_except
    (instruction <- dict_getitem complexity_prompts complexity_level ;;
     let prompt :=
       render instruction code_snippet programming_language prompt_template in
     chat_completion <- chat_completions c (create_request prompt) ;;
     first <- list_getitem0 (choices chat_completion) ;;
     ret (content (choice_message first)))
    (fun e => ret ("Error explaining code: " +:+ str e)).

(** ** The page *)

(** What the toolkit and the SDK give to one run of the script. *)
Record frontend : Type := {
  (** [st.secrets.get("GROQ_API_KEY")] *)
  secret_GROQ_API_KEY : option string;
  (** the entries chosen in the two select boxes *)
  chosen_language : string;
  chosen_level : string;
  (** the label of the button whose click started this run, if any *)
  clicked : option string;
  (** the text area: from its [value] argument to the text it holds *)
  text_area : string -> string;
  (** the constructor [Groq(api_key=...)]: raises or gives a client *)
  Groq : string -> string + client
}.

Definition languages : list string :=
  [ "Python"; "JavaScript"; "Java"; "C++"; "C"; "C#"; "Go"; "Rust"; "Ruby";
    "PHP"; "Swift"; "Kotlin"; "Other" ].

Definition levels : list string := [ "Beginner"; "Intermediate"; "Advanced" ].

(** [st.button(label)] is [True] in the run its click started. *)
Definition st_button (ui : frontend) (label : string) : bool :=
  bool_decide (clicked ui = Some label).

Definition initialize_groq_client (ui : frontend) : M (option client) :=
  v <- session_get "groq_api_key" ;;
  let api_key := default "" v in
  if Py.truthy api_key then
    try_except
      (match Groq ui api_key with
       | inl detail => raise (Fault detail)
       | inr c => ret (Some c)
       end)
      (fun e =>
         emit (st_error ("Error initializing Groq client: " +:+ str e)) ;;;
         ret None)
  else ret None.

Definition sample_list_comprehension : string :=
  Py.join Py.nl
    [ "numbers = [1, 2, 3, 4, 5, 6, 7, 8, 9, 10]";
      "even_squares = [x**2 for x in numbers if x % 2 == 0]";
      "print(even_squares)" ].

Definition sample_javascript_function : string :=
  Py.join Py.nl
    [ "function fibonacci(n) {";
      "    if (n <= 1) return n;";
      "    return fibonacci(n - 1) + fibonacci(n - 2);";
      "}";
      "";
      "console.log(fibonacci(10));" ].

Definition sample_python_class : string :=
  Py.join Py.nl
    [ "class Calculator:";
      "    def __init__(self):";
      "        self.history = []";
      "    ";
      "    def add(self, a, b):";
      "        result = a + b";
      "        self.history.append(f" +:+ Py.dq +:+ "{a} + {b} = {result}"
        +:+ Py.dq +:+ ")";
      "        return result";
      "        ";
      "calc = Calculator()";
      "print(calc.add(5, 3))" ].

Definition page_header : string :=
  "<h1 class=" +:+ Py.dq +:+ "main-header" +:+ Py.dq
  +:+ ">🤖 AI Code Explainer</h1>".

Definition explanation_open : string :=
  "<div class=" +:+ Py.dq +:+ "explanation-container" +:+ Py.dq +:+ ">".

Definition page_footer : string :=
  Py.join Py.nl
    [ "";
      "    <div style='text-align: center; color: #666;'>";
      "        <p>Built with ❤️ using Streamlit and Groq Cloud API</p>";
      "        <p><strong>Tips:</strong> Start with simple code snippets • Try different explanation levels • Use the sample code buttons</p>";
      "    </div>";
      "    " ].

(** [with st.sidebar:], lines 117-171; gives the two selections. *)
Definition sidebar (ui : frontend) : M (string * string) :=
  emit (st_header "⚙️ Settings") ;;;
  let api_key := secret_GROQ_API_KEY ui in
  when (truthy api_key)
    (session_set "groq_api_key" (default "" api_key) ;;;
     emit (st_success "API Key saved!")) ;;;
  emit (st_markdown "---" false) ;;;
  let programming_language := chosen_language ui in
  let complexity_level := chosen_level ui in
  emit (st_markdown "---" false) ;;;
  emit (st_markdown "### 📝 Sample Code" false) ;;;
  when (st_button ui "Python List Comprehension")
    (session_set "sample_code" sample_list_comprehension) ;;;
  when (st_button ui "JavaScript Function")
    (session_set "sample_code" sample_javascript_function) ;;;
  when (st_button ui "Python Class")
    (session_set "sample_code" sample_python_class) ;;;
  ret (programming_language, complexity_level).

(** [with col1:], lines 176-191; gives [code_snippet]. *)
Definition code_column (ui : frontend) : M string :=
  emit (st_header "📋 Code Input") ;;;
  v <- session_get "sample_code" ;;
  let value := default "" v in
  emit (st_text_area value) ;;;
  let code_snippet := text_area ui value in
  when (st_button ui "Clear Code")
    (session_set "sample_code" "" ;;;
     raise RerunException) ;;;
  ret code_snippet.

(** [with col2:], lines 193-216. *)
Definition explanation_column (ui : frontend)
    (code_snippet programming_language complexity_level : string) : M unit :=
  emit (st_header "💡 Code Explanation") ;;;
  when (st_button ui "Explain Code")
    (if negb (Py.truthy (Py.strip code_snippet)) then
       emit (st_warning "Please enter some code to explain!")
     else
       key <- session_get "groq_api_key" ;;
       if negb (truthy key) then
         emit (st_error "Please enter your Groq API key in the sidebar!")
       else
         c <- initialize_groq_client ui ;;
         match c with
         | Some c =>
             emit (st_spinner "Analyzing your code...") ;;;
             emit (call_explain_code code_snippet programming_language
                     complexity_level) ;;;
             explanation <- explain_code c code_snippet programming_language
                              complexity_level ;;
             emit (st_markdown explanation_open true) ;;;
             emit (st_markdown explanation false) ;;;
             emit (st_markdown "</div>" true)
         | None =>
             emit (st_error
                     "Failed to initialize Groq client. Please check your API key.")
         end).

Definition main (ui : frontend) : M unit :=
  emit (st_markdown page_header true) ;;;
  emit (st_markdown "---" false) ;;;
  sel <- sidebar ui ;;
  let '(programming_language, complexity_level) := sel in
  code_snippet <- code_column ui ;;
  explanation_column ui code_snippet programming_language complexity_level ;;;
  emit (st_markdown "---" false) ;;;
  emit (st_markdown page_footer true).

(** ** Observations on runs *)

Definition result {A} (r : outcome A * session_state * list event) : outcome A :=
  r.1.1.
Definition store {A} (r : outcome A * session_state * list event) : session_state :=
  r.1.2.
Definition trace {A} (r : outcome A * session_state * list event) : list event :=
  r.2.

(** [sub in s]. *)
Definition contains (sub s : string) : Prop :=
  exists pre post, s = pre +:+ sub +:+ post.

(** Number of replacement fields [f] in a template. *)
Fixpoint slots (f : field) (t : list part) : nat :=
  match t with
  | [] => 0
  | Lit _ :: t' => slots f t'
  | Fld g :: t' =>
      (match f, g with
       | f_instruction, f_instruction
       | f_language, f_language
       | f_language_lower, f_language_lower
       | f_code_snippet, f_code_snippet => 1
       | _, _ => 0
       end) + slots f t'
  end.

(** The answer [explain_code] draws from what the endpoint gave. *)
Definition answer (r : string + chat_completion) : string :=
  match r with
  | inl detail => "Error explaining code: " +:+ detail
  | inr completion =>
      match choices completion with
      | first :: _ => content (choice_message first)
      | [] => "Error explaining code: list index out of range"
      end
  end.

(** A code snippet that is empty or made of whitespace only: the text
    of code points that [str.isspace()] accepts, one and all. *)
Definition blank (code_snippet : string) : Prop :=
  exists cps,
    code_snippet = Py.encode cps /\
    Forall (fun cp => Py.isspace cp = true) cps.

(** What [main] passes to [st.text_area] and what the widget gives. *)
Definition code_value (ss : session_state) : string :=
  default "" (ss !! "sample_code").

(** The store and the trace the sidebar leaves when no sample button is
    clicked. *)
Definition sidebar_store (ui : frontend) (ss : session_state) : session_state :=
  if truthy (secret_GROQ_API_KEY ui)
  then <["groq_api_key" := default "" (secret_GROQ_API_KEY ui)]> ss
  else ss.

Definition sidebar_trace (ui : frontend) : list event :=
  st_header "⚙️ Settings"
  :: (if truthy (secret_GROQ_API_KEY ui)
      then [ st_success "API Key saved!" ] else [])
  ++ [ st_markdown "---" false; st_markdown "---" false;
       st_markdown "### 📝 Sample Code" false ].

(** The markdown of the page frame: title, rules, sample heading, footer. *)
Definition page_frame : list event :=
  [ st_markdown page_header true; st_markdown "---" false;
    st_markdown "### 📝 Sample Code" false; st_markdown page_footer true ].

(** No sample button was clicked in this run. *)
Definition no_sample_clicked (ui : frontend) : Prop :=
  st_button ui "Python List Comprehension" = false /\
  st_button ui "JavaScript Function" = false /\
  st_button ui "Python Class" = false.

(** A run for the examples: the user typed [typed] into the text area
    and clicked [button]; the secret store gave [secret]; the SDK
    accepts every key and its endpoint answers with the text [reply]. *)
Definition example_ui (secret : option string) (typed : string)
    (button : option string) (reply : string) : frontend :=
  {| secret_GROQ_API_KEY := secret;
     chosen_language := "Python";
     chosen_level := "Beginner";
     clicked := button;
     text_area := fun _ => typed;
     Groq := fun _ =>
       inr (fun _ =>
              inr {| choices :=
                       [ {| choice_message :=
                              {| role := "assistant"; content := reply |} |} ] |}) |}.

(** *** Closed forms of the runs, used to reason about whole pages *)

(** What [explain_code] returns and which outbound calls it makes. *)
Definition explanation_text (c : client) (code lang level : string) : string :=
  match complexity_prompts !! level with
  | Some instruction =>
      answer (c (create_request (render instruction code lang prompt_template)))
  | None => "Error explaining code: " +:+ Py.repr level
  end.

Definition outbound_calls (code lang level : string) : list event :=
  match complexity_prompts !! level with
  | Some instruction =>
      [ chat_completions_create
          (create_request (render instruction code lang prompt_template)) ]
  | None => []
  end.

Arguments explanation_text : simpl never.
Arguments outbound_calls : simpl never.

(** The credential [initialize_groq_client] reads, the client it gives
    and the error it shows. *)
Definition stored_key (ss : session_state) : string :=
  default "" (ss !! "groq_api_key").

Definition client_of (ui : frontend) (ss : session_state) : option client :=
  if Py.truthy (stored_key ss) then
    match Groq ui (stored_key ss) with
    | inr c => Some c
    | inl _ => None
    end
  else None.

Definition client_errors (ui : frontend) (ss : session_state) : list event :=
  if Py.truthy (stored_key ss) then
    match Groq ui (stored_key ss) with
    | inr _ => []
    | inl detail => [ st_error ("Error initializing Groq client: " +:+ detail) ]
    end
  else [].

(** The store after the three sample buttons of the sidebar. *)
Definition load_samples (ui : frontend) (ss : session_state) : session_state :=
  let ss1 :=
    if st_button ui "Python List Comprehension"
    then <["sample_code" := sample_list_comprehension]> ss else ss in
  let ss2 :=
    if st_button ui "JavaScript Function"
    then <["sample_code" := sample_javascript_function]> ss1 else ss1 in
  if st_button ui "Python Class"
  then <["sample_code" := sample_python_class]> ss2 else ss2.

(** The sample buttons and their snippets. *)
Definition samples : list (string * string) :=
  [ ("Python List Comprehension", sample_list_comprehension);
    ("JavaScript Function", sample_javascript_function);
    ("Python Class", sample_python_class) ].

(** The trace of the right-hand column. *)
Definition explanation_trace (ui : frontend) (code lang level : string)
    (ss : session_state) : list event :=
  st_header "💡 Code Explanation"
  :: (if st_button ui "Explain Code" then
        if negb (Py.truthy (Py.strip code)) then
          [ st_warning "Please enter some code to explain!" ]
        else if negb (truthy (ss !! "groq_api_key")) then
          [ st_error "Please enter your Groq API key in the sidebar!" ]
        else
          client_errors ui ss
          ++ match client_of ui ss with
             | Some c =>
                 [ st_spinner "Analyzing your code...";
                   call_explain_code code lang level ]
                 ++ outbound_calls code lang level
                 ++ [ st_markdown explanation_open true;
                      st_markdown (explanation_text c code lang level) false;
                      st_markdown "</div>" true ]
             | None =>
                 [ st_error
                     "Failed to initialize Groq client. Please check your API key." ]
             end
      else []).

(** Events that are outbound calls, or entries into [explain_code]. *)
Definition is_create (ev : event) : bool :=
  match ev with chat_completions_create _ => true | _ => false end.

Definition is_explain (ev : event) : bool :=
  match ev with call_explain_code _ _ _ => true | _ => false end.

Definition is_alert (ev : event) : bool :=
  match ev with st_error _ | st_warning _ => true | _ => false end.

Definition is_warning (ev : event) : bool :=
  match ev with st_warning _ => true | _ => false end.

(** * Properties *)

(** ** Strings *)

Lemma prefix_app (p s : string) : String.prefix p (p +:+ s) = true.
Proof.
  induction p as [|a p IH]; simpl.
  - by destruct s.
  - destruct (ascii_dec a a); [exact IH | congruence].
Qed.

Lemma isspace_whitespace (cp : N) :
  Py.isspace cp = true <-> In cp Py.whitespace.
Proof.
  unfold Py.isspace. rewrite List.existsb_exists. split.
  - intros (x & Hx & E). apply N.eqb_eq in E. by subst x.
  - intros H. exists cp. split; [done|apply N.eqb_refl].
Qed.

Lemma lstrip_space (cp : N) (s : string) :
  Py.isspace cp = true -> Py.lstrip (Py.utf8 cp +:+ s) = Py.lstrip s.
Proof.
  intros H. apply isspace_whitespace in H. unfold Py.whitespace in H.
  cbn [In] in H.
  repeat (destruct H as [<-|H]; [vm_compute; reflexivity|]). destruct H.
Qed.

Lemma lstrip_blank (s : string) : blank s -> Py.lstrip s = "".
Proof.
  intros (cps & -> & H). induction H as [|cp cps Hcp _ IH]; [done|].
  cbn [Py.encode]. by rewrite lstrip_space.
Qed.

Lemma strip_blank (s : string) : blank s -> Py.strip s = "".
Proof. intros H. unfold Py.strip. by rewrite lstrip_blank. Qed.

(** ** The template table *)

Lemma complexity_prompts_other (level : string) :
  ~ In level levels -> complexity_prompts !! level = None.
Proof.
  intros H. unfold complexity_prompts, levels in *. simpl in H.
  rewrite !lookup_insert_ne by (intros E; tauto).
  apply lookup_empty.
Qed.

Lemma complexity_prompts_level (level : string) :
  In level levels -> is_Some (complexity_prompts !! level).
Proof.
  unfold levels; simpl.
  intros [<-|[<-|[<-|[]]]]; vm_compute; eauto.
Qed.

(** ** Runs of [explain_code] *)

Lemma explain_code_known c code lang level instruction ss :
  complexity_prompts !! level = Some instruction ->
  let req := create_request (render instruction code lang prompt_template) in
  explain_code c code lang level ss
  = (Return (answer (c req)), ss, [chat_completions_create req]).
Proof.
  intros H req. subst req. unfold explain_code, try_except, bind, dict_getitem.
  rewrite H. cbv beta iota zeta delta [ret].
  generalize (create_request (render instruction code lang prompt_template)).
  intros req. unfold chat_completions, bind, emit, ret, raise.
  destruct (c req) as [detail|completion]; simpl; [done|].
  unfold list_getitem0. by destruct (choices completion).
Qed.

Lemma explain_code_unknown c code lang level ss :
  complexity_prompts !! level = None ->
  explain_code c code lang level ss
  = (Return ("Error explaining code: " +:+ Py.repr level), ss, []).
Proof.
  intros H.
  unfold explain_code, try_except, bind, dict_getitem. by rewrite H.
Qed.

(** Whatever the arguments, a run of [explain_code] has one of the two
    shapes above. *)
Lemma explain_code_cases c code lang level ss :
  (exists instruction,
      complexity_prompts !! level = Some instruction /\
      explain_code c code lang level ss
      = (Return (answer (c (create_request
                              (render instruction code lang prompt_template)))),
         ss,
         [chat_completions_create
            (create_request (render instruction code lang prompt_template))]))
  \/ (complexity_prompts !! level = None /\
      explain_code c code lang level ss
      = (Return ("Error explaining code: " +:+ Py.repr level), ss, [])).
Proof.
  destruct (complexity_prompts !! level) as [instruction|] eqn:H.
  - left. exists instruction. split; [done|]. by apply explain_code_known.
  - right. split; [done|]. by apply explain_code_unknown.
Qed.

Lemma append_cons (x : ascii) (a b : string) :
  String x a +:+ b = String x (a +:+ b).
Proof. reflexivity. Qed.

Lemma append_assoc (a b c : string) : (a +:+ b) +:+ c = a +:+ b +:+ c.
Proof.
  induction a as [|x a IH]; [reflexivity|].
  rewrite !append_cons. f_equal. exact IH.
Qed.

Lemma append_empty_r (a : string) : a +:+ "" = a.
Proof.
  induction a as [|x a IH]; [reflexivity|].
  rewrite append_cons. f_equal. exact IH.
Qed.

(** ** Claims about [explain_code] *)

(** C1. When the remote call of an invocation raises a fault,
    [explain_code] returns (it does not raise) the text
    "Error explaining code: " followed by the fault's detail. *)
Theorem explain_code_remote_fault c code lang level ss req detail :
  In (chat_completions_create req) (trace (explain_code c code lang level ss)) ->
  c req = inl detail ->
  exists r,
    result (explain_code c code lang level ss) = Return r /\
    r = "Error explaining code: " +:+ detail /\
    String.prefix "Error explaining code: " r = true /\
    contains detail r.
Proof.
  intros Hcall Hfault.
  destruct (explain_code_cases c code lang level ss)
    as [(instruction & _ & E)|[_ E]];
    unfold trace, result in *; rewrite E in *; simpl in *.
  - destruct Hcall as [[= <-]|[]]. rewrite Hfault. simpl.
    eexists; split; [done|]. split; [done|]. split; [apply prefix_app|].
    exists "Error explaining code: ", "". by rewrite append_empty_r.
  - done.
Qed.

Lemma explain_code_remote_fault_witness :
  exists r,
    result (explain_code (fun _ => inl "Connection error.") "x = 1" "Python"
              "Beginner" ∅) = Return r /\
    r = "Error explaining code: Connection error." /\
    String.prefix "Error explaining code: " r = true /\
    contains "Connection error." r.
Proof.
  apply (explain_code_remote_fault (fun _ => inl "Connection error.")
           "x = 1" "Python" "Beginner" ∅
           (create_request
              (render "Explain this code in very simple terms, as if talking to someone who just started programming. Use everyday language and avoid technical jargon."
                 "x = 1" "Python" prompt_template))).
  - vm_compute. left. reflexivity.
  - reflexivity.
Defined.

(** C2. When the remote call of an invocation succeeds and the content
    of the first choice's message is [X], [explain_code] returns [X]
    itself. *)
Theorem explain_code_success c code lang level ss req completion first rest X :
  In (chat_completions_create req) (trace (explain_code c code lang level ss)) ->
  c req = inr completion ->
  choices completion = first :: rest ->
  content (choice_message first) = X ->
  result (explain_code c code lang level ss) = Return X.
Proof.
  intros Hcall Hok Hchoices HX.
  destruct (explain_code_cases c code lang level ss)
    as [(instruction & _ & E)|[_ E]];
    unfold trace, result in *; rewrite E in *; simpl in *.
  - destruct Hcall as [[= <-]|[]]. by rewrite Hok; simpl; rewrite Hchoices, HX.
  - done.
Qed.

Lemma explain_code_success_witness :
  result
    (explain_code
       (fun _ => inr {| choices :=
                          [ {| choice_message :=
                                 {| role := "assistant";
                                    content := "  It prints 1.  " |} |} ] |})
       "print(1)" "Python" "Advanced" ∅)
  = Return "  It prints 1.  ".
Proof.
  eapply (explain_code_success _ "print(1)" "Python" "Advanced" ∅
            (create_request
               (render "Provide a detailed technical explanation of this code, including algorithms, design patterns, and performance considerations."
                  "print(1)" "Python" prompt_template))).
  - vm_compute. left. reflexivity.
  - reflexivity.
  - reflexivity.
  - reflexivity.
Defined.

(** C3. Each of the three levels selects an instruction of the table;
    the instruction is not empty, two different levels select different
    instructions, and the selected instruction is the one the prompt of
    [explain_code] is built from. *)
Theorem instruction_selection level1 level2 :
  In level1 levels -> In level2 levels ->
  exists instruction1 instruction2,
    complexity_prompts !! level1 = Some instruction1 /\
    complexity_prompts !! level2 = Some instruction2 /\
    instruction1 <> "" /\
    (level1 <> level2 -> instruction1 <> instruction2) /\
    forall c code lang ss,
      trace (explain_code c code lang level1 ss)
      = [ chat_completions_create
            (create_request (render instruction1 code lang prompt_template)) ].
Proof.
  intros H1 H2.
  destruct (complexity_prompts_level _ H1) as [i1 E1].
  destruct (complexity_prompts_level _ H2) as [i2 E2].
  exists i1, i2. split; [done|]. split; [done|].
  assert (forall c code lang ss,
             trace (explain_code c code lang level1 ss)
             = [ chat_completions_create
                   (create_request (render i1 code lang prompt_template)) ])
    as Htrace.
  { intros. by rewrite (explain_code_known _ _ _ _ _ _ E1). }
  unfold levels in H1, H2; simpl in H1, H2.
  destruct H1 as [<-|[<-|[<-|[]]]]; destruct H2 as [<-|[<-|[<-|[]]]];
    vm_compute in E1, E2;
    injection E1 as <-; injection E2 as <-;
    (split; [discriminate|]); (split; [|exact Htrace]);
    intros Hne; solve [discriminate | by destruct Hne].
Qed.

Lemma instruction_selection_witness :
  exists instruction1 instruction2,
    complexity_prompts !! "Beginner" = Some instruction1 /\
    complexity_prompts !! "Advanced" = Some instruction2 /\
    instruction1 <> "" /\
    ("Beginner" <> "Advanced" -> instruction1 <> instruction2) /\
    forall c code lang ss,
      trace (explain_code c code lang "Beginner" ss)
      = [ chat_completions_create
            (create_request (render instruction1 code lang prompt_template)) ].
Proof.
  apply (instruction_selection "Beginner" "Advanced").
  - unfold levels. simpl. tauto.
  - unfold levels. simpl. tauto.
Defined.

(** C6. Every invocation of [explain_code] returns a string: no run
    ends in a raised exception. *)
Theorem explain_code_returns_string c code lang level ss :
  exists s, result (explain_code c code lang level ss) = Return s.
Proof.
  destruct (explain_code_cases c code lang level ss)
    as [(instruction & _ & E)|[_ E]]; rewrite E; unfold result; simpl; eauto.
Qed.

(** C10. With a level that is not in the table, [explain_code] does not
    raise: the failed lookup is handled like a remote fault and the
    returned text begins with "Error explaining code: ". *)
Theorem explain_code_unknown_level c code lang level ss :
  ~ In level levels ->
  exists r,
    explain_code c code lang level ss = (Return r, ss, []) /\
    r = "Error explaining code: " +:+ str (KeyError level) /\
    String.prefix "Error explaining code: " r = true.
Proof.
  intros H. eexists. split; [|split; [reflexivity|apply prefix_app]].
  apply explain_code_unknown. by apply complexity_prompts_other.
Qed.

Lemma explain_code_unknown_level_witness :
  exists r,
    explain_code (fun _ => inl "unreachable") "x = 1" "Python" "Expert" ∅
    = (Return r, ∅, []) /\
    r = "Error explaining code: " +:+ str (KeyError "Expert") /\
    String.prefix "Error explaining code: " r = true.
Proof.
  apply (explain_code_unknown_level (fun _ => inl "unreachable")
           "x = 1" "Python" "Expert" ∅).
  unfold levels. simpl. intros [H|[H|[H|[]]]]; discriminate H.
Defined.

(** C7. The template has one field for the language label, right after
    "Programming Language: ", and one field for the lower-cased label,
    right after the opening fence; for every label of the select box
    the prompt has the label at the first place and its lower-cased
    form at the second, the lower-cased form of each label is the one
    listed beside it, and this is the prompt [explain_code] sends. *)
Theorem prompt_language_label lang code level instruction :
  In lang languages ->
  complexity_prompts !! level = Some instruction ->
  slots f_language prompt_template = 1 /\
  slots f_language_lower prompt_template = 1 /\
  (exists rest,
      render instruction code lang prompt_template
      = (br +:+ instruction +:+ br +:+ br)
        +:+ "Programming Language: " +:+ lang
        +:+ (br +:+ br +:+ "Code to explain:" +:+ br)
        +:+ "```" +:+ Py.lower lang +:+ Py.nl
        +:+ ind +:+ code +:+ br +:+ "```" +:+ rest) /\
  In (lang, Py.lower lang)
    [ ("Python", "python"); ("JavaScript", "javascript"); ("Java", "java");
      ("C++", "c++"); ("C", "c"); ("C#", "c#"); ("Go", "go");
      ("Rust", "rust"); ("Ruby", "ruby"); ("PHP", "php");
      ("Swift", "swift"); ("Kotlin", "kotlin"); ("Other", "other") ] /\
  forall c ss,
    trace (explain_code c code lang level ss)
    = [ chat_completions_create
          (create_request (render instruction code lang prompt_template)) ].
Proof.
  intros Hlang Hlevel.
  split; [reflexivity|]. split; [reflexivity|]. split; [|split].
  - eexists. unfold render, prompt_template, fill, br.
    rewrite !append_assoc, append_empty_r. reflexivity.
  - unfold languages in Hlang. simpl in Hlang.
    repeat (destruct Hlang as [<-|Hlang]; [vm_compute; tauto|]).
    destruct Hlang.
  - intros. by rewrite (explain_code_known _ _ _ _ _ _ Hlevel).
Qed.

Lemma prompt_language_label_witness :
  slots f_language prompt_template = 1 /\
  slots f_language_lower prompt_template = 1 /\
  (exists rest,
      render "Explain this code clearly, including the main concepts and how different parts work together. Use some technical terms but explain them."
        "int main() {}" "C++" prompt_template
      = (br +:+ "Explain this code clearly, including the main concepts and how different parts work together. Use some technical terms but explain them." +:+ br +:+ br)
        +:+ "Programming Language: " +:+ "C++"
        +:+ (br +:+ br +:+ "Code to explain:" +:+ br)
        +:+ "```" +:+ Py.lower "C++" +:+ Py.nl
        +:+ ind +:+ "int main() {}" +:+ br +:+ "```" +:+ rest) /\
  In ("C++", Py.lower "C++")
    [ ("Python", "python"); ("JavaScript", "javascript"); ("Java", "java");
      ("C++", "c++"); ("C", "c"); ("C#", "c#"); ("Go", "go");
      ("Rust", "rust"); ("Ruby", "ruby"); ("PHP", "php");
      ("Swift", "swift"); ("Kotlin", "kotlin"); ("Other", "other") ] /\
  forall c ss,
    trace (explain_code c "int main() {}" "C++" "Intermediate" ss)
    = [ chat_completions_create
          (create_request
             (render "Explain this code clearly, including the main concepts and how different parts work together. Use some technical terms but explain them."
                "int main() {}" "C++" prompt_template)) ].
Proof.
  apply (prompt_language_label "C++" "int main() {}" "Intermediate").
  - unfold languages. simpl. tauto.
  - reflexivity.
Defined.

(** C8, as stated, fails: with a level outside the table the lookup
    fails before the call, and the invocation issues no outbound call. *)
Lemma unknown_level_issues_no_call :
  trace (explain_code (fun _ => inl "unreachable") "x = 1" "Python" "Expert" ∅)
  = [] /\
  ~ (forall c code lang level ss,
        exists req,
          trace (explain_code c code lang level ss)
          = [ chat_completions_create req ]).
Proof.
  split; [reflexivity|]. intros H.
  destruct (H (fun _ => inl "unreachable") "x = 1" "Python" "Expert" ∅)
    as [req Hreq].
  vm_compute in Hreq. discriminate Hreq.
Qed.

(** C8, amended. An invocation of [explain_code] with one of the three
    levels issues exactly one outbound call; the call carries the fixed
    system message and the user message with the constructed prompt,
    the fixed model, temperature 0.3 and at most 1500 output tokens;
    the session store is left as it was and nothing else is traced. *)
Theorem explain_code_one_call c code lang level ss :
  In level levels ->
  exists instruction req,
    complexity_prompts !! level = Some instruction /\
    trace (explain_code c code lang level ss) = [ chat_completions_create req ] /\
    messages req
    = [ system_message;
        {| role := "user";
           content := render instruction code lang prompt_template |} ] /\
    role system_message = "system" /\
    model req = "llama3-8b-8192" /\
    temperature req = (3 # 10)%Q /\
    max_tokens req = 1500%Z /\
    store (explain_code c code lang level ss) = ss.
Proof.
  intros H. destruct (complexity_prompts_level _ H) as [instruction E].
  exists instruction,
    (create_request (render instruction code lang prompt_template)).
  rewrite (explain_code_known _ _ _ _ _ _ E). unfold trace, store. simpl.
  repeat split; done.
Qed.

Lemma explain_code_one_call_witness :
  exists instruction req,
    complexity_prompts !! "Advanced" = Some instruction /\
    trace (explain_code (fun _ => inl "503") "x = 1" "Python" "Advanced" ∅)
    = [ chat_completions_create req ] /\
    messages req
    = [ system_message;
        {| role := "user";
           content := render instruction "x = 1" "Python" prompt_template |} ] /\
    role system_message = "system" /\
    model req = "llama3-8b-8192" /\
    temperature req = (3 # 10)%Q /\
    max_tokens req = 1500%Z /\
    store (explain_code (fun _ => inl "503") "x = 1" "Python" "Advanced" ∅) = ∅.
Proof.
  apply (explain_code_one_call (fun _ => inl "503") "x = 1" "Python"
           "Advanced" ∅).
  unfold levels. simpl. tauto.
Defined.

(** ** Runs of the page *)

Lemma st_button_clicked ui label :
  clicked ui = Some label -> st_button ui label = true.
Proof. intros H. unfold st_button. by rewrite H, bool_decide_eq_true. Qed.

Lemma st_button_other ui label label' :
  clicked ui = Some label -> label <> label' -> st_button ui label' = false.
Proof.
  intros H Hne. unfold st_button. rewrite H, bool_decide_eq_false.
  intros [= E]. by apply Hne.
Qed.

Lemma st_button_none ui label : clicked ui = None -> st_button ui label = false.
Proof. intros H. unfold st_button. by rewrite H, bool_decide_eq_false. Qed.

Lemma sidebar_run ui ss :
  no_sample_clicked ui ->
  sidebar ui ss
  = (Return (chosen_language ui, chosen_level ui), sidebar_store ui ss,
     sidebar_trace ui).
Proof.
  intros (H1 & H2 & H3).
  unfold sidebar, sidebar_store, sidebar_trace, when, bind, emit, session_set, ret.
  rewrite H1, H2, H3.
  by destruct (truthy (secret_GROQ_API_KEY ui)).
Qed.

Lemma code_value_sidebar_store ui ss :
  code_value (sidebar_store ui ss) = code_value ss.
Proof.
  unfold code_value, sidebar_store.
  destruct (truthy (secret_GROQ_API_KEY ui)); [|done].
  by rewrite lookup_insert_ne.
Qed.

Lemma code_column_run ui ss :
  st_button ui "Clear Code" = false ->
  code_column ui ss
  = (Return (text_area ui (code_value ss)), ss,
     [ st_header "📋 Code Input"; st_text_area (code_value ss) ]).
Proof.
  intros H. unfold code_column, when, bind, emit, session_get, ret.
  by rewrite H.
Qed.

Lemma code_column_clear ui ss :
  st_button ui "Clear Code" = true ->
  code_column ui ss
  = (Raise RerunException, <["sample_code" := ""]> ss,
     [ st_header "📋 Code Input"; st_text_area (code_value ss) ]).
Proof.
  intros H.
  unfold code_column, when, bind, emit, session_get, session_set, raise, ret.
  by rewrite H.
Qed.

(** A run in which neither a sample button nor "Clear Code" was
    clicked goes through the three blocks in order. *)
Lemma main_run ui ss :
  no_sample_clicked ui ->
  st_button ui "Clear Code" = false ->
  main ui ss
  = let ss1 := sidebar_store ui ss in
    let code_snippet := text_area ui (code_value ss) in
    let before :=
      [ st_markdown page_header true; st_markdown "---" false ]
      ++ sidebar_trace ui
      ++ [ st_header "📋 Code Input"; st_text_area (code_value ss) ] in
    match explanation_column ui code_snippet (chosen_language ui)
            (chosen_level ui) ss1 with
    | (Return _, ss2, out) =>
        (Return tt, ss2,
         before ++ out
         ++ [ st_markdown "---" false; st_markdown page_footer true ])
    | (Raise e, ss2, out) => (Raise e, ss2, before ++ out)
    end.
Proof.
  intros Hs Hc. unfold main, bind at 1 2 3 4 5 6. unfold emit at 1 2.
  rewrite (sidebar_run _ _ Hs), (code_column_run _ _ Hc).
  rewrite code_value_sidebar_store. cbv zeta.
  destruct (explanation_column _ _ _ _ _) as [[[[]|e] ss2] out]; simpl.
  - unfold emit, bind. simpl. by destruct (truthy (secret_GROQ_API_KEY ui)).
  - by destruct (truthy (secret_GROQ_API_KEY ui)).
Qed.

Lemma explanation_column_blank ui code lang level ss :
  st_button ui "Explain Code" = true ->
  Py.strip code = "" ->
  explanation_column ui code lang level ss
  = (Return tt, ss,
     [ st_header "💡 Code Explanation";
       st_warning "Please enter some code to explain!" ]).
Proof.
  intros Hb Hs. unfold explanation_column, when, bind, emit.
  by rewrite Hb, Hs.
Qed.

Lemma explanation_column_no_key ui code lang level ss :
  st_button ui "Explain Code" = true ->
  Py.strip code <> "" ->
  truthy (ss !! "groq_api_key") = false ->
  explanation_column ui code lang level ss
  = (Return tt, ss,
     [ st_header "💡 Code Explanation";
       st_error "Please enter your Groq API key in the sidebar!" ]).
Proof.
  intros Hb Hs Hk. unfold explanation_column, when, bind, emit, session_get.
  rewrite Hb. destruct (Py.strip code) as [|a s]; [done|]. simpl.
  by rewrite Hk.
Qed.

Lemma explain_clicked ui :
  clicked ui = Some "Explain Code" ->
  no_sample_clicked ui /\
  st_button ui "Clear Code" = false /\
  st_button ui "Explain Code" = true.
Proof.
  intros H. unfold no_sample_clicked.
  rewrite !(st_button_other _ _ _ H) by discriminate.
  by rewrite (st_button_clicked _ _ H).
Qed.

(** Going through the members of a trace that is known up to the
    sidebar's success message. *)
Ltac members H :=
  simpl in H;
  repeat (destruct H as [H|H];
          [try discriminate H; try (injection H as <- <-); try (injection H as <-)|]);
  try contradiction.

(** ** Claims about the page *)

(** C4. When "Explain Code" is clicked on a code snippet that is empty
    or whitespace only, the run ends normally, the warning is shown,
    [explain_code] is not entered, no outbound call is made, and the
    only markdown on the page is that of the page frame: no explanation
    is rendered. *)
Theorem blank_code_only_warns ui ss :
  clicked ui = Some "Explain Code" ->
  blank (text_area ui (code_value ss)) ->
  result (main ui ss) = Return tt /\
  In (st_warning "Please enter some code to explain!") (trace (main ui ss)) /\
  (forall code lang level,
      ~ In (call_explain_code code lang level) (trace (main ui ss))) /\
  (forall req, ~ In (chat_completions_create req) (trace (main ui ss))) /\
  (forall body html,
      In (st_markdown body html) (trace (main ui ss)) ->
      In (st_markdown body html) page_frame).
Proof.
  intros Hclick Hblank.
  destruct (explain_clicked _ Hclick) as (Hs & Hc & He).
  rewrite (main_run _ _ Hs Hc). cbv zeta.
  rewrite (explanation_column_blank _ _ _ _ _ He (strip_blank _ Hblank)).
  unfold result, trace, sidebar_trace, page_frame. simpl.
  destruct (truthy (secret_GROQ_API_KEY ui)); simpl.
  - split; [done|]. split; [tauto|].
    split; [intros ??? H; members H|].
    split; [intros ? H; members H|].
    intros ?? H; members H; tauto.
  - split; [done|]. split; [tauto|].
    split; [intros ??? H; members H|].
    split; [intros ? H; members H|].
    intros ?? H; members H; tauto.
Qed.

Lemma blank_code_only_warns_witness :
  let ui :=
    example_ui (Some "gsk_test") (Py.encode [0x20; 0xA0; 0x3000; 0x0A]%N)
      (Some "Explain Code") "ok" in
  result (main ui ∅) = Return tt /\
  In (st_warning "Please enter some code to explain!") (trace (main ui ∅)) /\
  (forall code lang level,
      ~ In (call_explain_code code lang level) (trace (main ui ∅))) /\
  (forall req, ~ In (chat_completions_create req) (trace (main ui ∅))) /\
  (forall body html,
      In (st_markdown body html) (trace (main ui ∅)) ->
      In (st_markdown body html) page_frame).
Proof.
  apply (blank_code_only_warns
           (example_ui (Some "gsk_test")
              (Py.encode [0x20; 0xA0; 0x3000; 0x0A]%N)
              (Some "Explain Code") "ok") ∅).
  - reflexivity.
  - exists [0x20; 0xA0; 0x3000; 0x0A]%N.
    split; [reflexivity|repeat constructor].
Defined.

(** C5, as stated, fails: without a credential and with an empty code
    box, "Explain Code" shows the warning about the code and no error. *)
Lemma blank_code_without_key_shows_no_error :
  let ui := example_ui None "" (Some "Explain Code") "ok" in
  clicked ui = Some "Explain Code" /\
  truthy (secret_GROQ_API_KEY ui) = false /\
  truthy ((∅ : session_state) !! "groq_api_key") = false /\
  In (st_warning "Please enter some code to explain!") (trace (main ui ∅)) /\
  ~ (exists msg, In (st_error msg) (trace (main ui ∅))).
Proof.
  cbv zeta. split; [reflexivity|]. split; [reflexivity|]. split; [reflexivity|].
  split.
  - vm_compute. tauto.
  - intros [msg H]. vm_compute in H. members H.
Qed.

(** C5, amended. Without a credential (none from the secret store, none
    or an empty one in the session store), a click on "Explain Code"
    never enters [explain_code] and makes no outbound call, whatever
    the code; when the code is not blank the error about the API key is
    shown, and when it is blank the warning about the code is shown
    and no error. *)
Theorem missing_key_blocks_explanation ui ss :
  clicked ui = Some "Explain Code" ->
  truthy (secret_GROQ_API_KEY ui) = false ->
  truthy (ss !! "groq_api_key") = false ->
  let code_snippet := text_area ui (code_value ss) in
  result (main ui ss) = Return tt /\
  (forall code lang level,
      ~ In (call_explain_code code lang level) (trace (main ui ss))) /\
  (forall req, ~ In (chat_completions_create req) (trace (main ui ss))) /\
  (Py.strip code_snippet <> "" ->
   In (st_error "Please enter your Groq API key in the sidebar!")
     (trace (main ui ss))) /\
  (Py.strip code_snippet = "" ->
   In (st_warning "Please enter some code to explain!") (trace (main ui ss)) /\
   forall msg, ~ In (st_error msg) (trace (main ui ss))).
Proof.
  intros Hclick Hsecret Hkey code_snippet.
  destruct (explain_clicked _ Hclick) as (Hs & Hc & He).
  rewrite (main_run _ _ Hs Hc). cbv zeta. fold code_snippet.
  assert (sidebar_store ui ss = ss) as -> by (unfold sidebar_store; by rewrite Hsecret).
  unfold sidebar_trace. rewrite Hsecret.
  destruct (decide (Py.strip code_snippet = "")) as [Hblank|Hcode].
  - rewrite (explanation_column_blank _ _ _ _ _ He Hblank).
    unfold result, trace. simpl.
    split; [done|].
    split; [intros ??? H; members H|].
    split; [intros ? H; members H|].
    split; [done|]. intros _.
    split; [tauto|]. intros ? H; members H.
  - rewrite (explanation_column_no_key _ _ _ _ _ He Hcode Hkey).
    unfold result, trace. simpl.
    split; [done|].
    split; [intros ??? H; members H|].
    split; [intros ? H; members H|].
    split; [tauto|]. done.
Qed.

Lemma missing_key_blocks_explanation_witness :
  let ui := example_ui None "print(1)" (Some "Explain Code") "ok" in
  let code_snippet := text_area ui (code_value ∅) in
  result (main ui ∅) = Return tt /\
  (forall code lang level,
      ~ In (call_explain_code code lang level) (trace (main ui ∅))) /\
  (forall req, ~ In (chat_completions_create req) (trace (main ui ∅))) /\
  (Py.strip code_snippet <> "" ->
   In (st_error "Please enter your Groq API key in the sidebar!")
     (trace (main ui ∅))) /\
  (Py.strip code_snippet = "" ->
   In (st_warning "Please enter some code to explain!") (trace (main ui ∅)) /\
   forall msg, ~ In (st_error msg) (trace (main ui ∅))).
Proof.
  apply (missing_key_blocks_explanation
           (example_ui None "print(1)" (Some "Explain Code") "ok") ∅).
  - reflexivity.
  - reflexivity.
  - reflexivity.
Defined.

Lemma main_clear ui ss :
  clicked ui = Some "Clear Code" ->
  main ui ss
  = (Raise RerunException, <["sample_code" := ""]> (sidebar_store ui ss),
     [ st_markdown page_header true; st_markdown "---" false ]
     ++ sidebar_trace ui
     ++ [ st_header "📋 Code Input"; st_text_area (code_value ss) ]).
Proof.
  intros H.
  assert (no_sample_clicked ui) as Hs.
  { unfold no_sample_clicked.
    by rewrite !(st_button_other _ _ _ H) by discriminate. }
  unfold main, bind at 1 2 3 4 5 6. unfold emit at 1 2.
  rewrite (sidebar_run _ _ Hs).
  rewrite (code_column_clear _ _ (st_button_clicked _ _ H)).
  rewrite code_value_sidebar_store. simpl.
  by destruct (truthy (secret_GROQ_API_KEY ui)).
Qed.

(** C9. A click on "Clear Code" writes the empty string under
    ['sample_code'] and stops the run with a rerun request; in the run
    that follows, in which no button is clicked, the value read back
    for the code input is the empty string: it is what the text area
    is given. *)
Theorem clear_code_reads_back_empty ui ui' ss :
  clicked ui = Some "Clear Code" ->
  clicked ui' = None ->
  let ss' := store (main ui ss) in
  result (main ui ss) = Raise RerunException /\
  ss' !! "sample_code" = Some "" /\
  code_value ss' = "" /\
  In (st_text_area "") (trace (main ui' ss')) /\
  forall value, In (st_text_area value) (trace (main ui' ss')) -> value = "".
Proof.
  intros Hclear Hnone ss'. subst ss'.
  rewrite (main_clear _ _ Hclear). unfold result, store. simpl.
  set (ss' := <["sample_code" := ""]> (sidebar_store ui ss)).
  assert (ss' !! "sample_code" = Some "") as Hread
    by (subst ss'; apply lookup_insert_eq).
  assert (code_value ss' = "") as Hvalue by (unfold code_value; by rewrite Hread).
  split; [done|]. split; [done|]. split; [done|].
  assert (no_sample_clicked ui') as Hs.
  { unfold no_sample_clicked. by rewrite !(st_button_none _ _ Hnone). }
  rewrite (main_run _ _ Hs (st_button_none _ _ Hnone)). cbv zeta.
  rewrite Hvalue.
  unfold explanation_column, when, bind at 1, emit at 1.
  rewrite (st_button_none _ _ Hnone). unfold ret, trace, sidebar_trace. simpl.
  destruct (truthy (secret_GROQ_API_KEY ui')); simpl.
  - split; [tauto|]. intros ? H; members H; done.
  - split; [tauto|]. intros ? H; members H; done.
Qed.

Lemma clear_code_reads_back_empty_witness :
  let ui := example_ui (Some "gsk_test") "print(1)" (Some "Clear Code") "ok" in
  let ui' := example_ui (Some "gsk_test") "print(1)" None "ok" in
  let ss := <["sample_code" := sample_python_class]> (∅ : session_state) in
  let ss' := store (main ui ss) in
  result (main ui ss) = Raise RerunException /\
  ss' !! "sample_code" = Some "" /\
  code_value ss' = "" /\
  In (st_text_area "") (trace (main ui' ss')) /\
  forall value, In (st_text_area value) (trace (main ui' ss')) -> value = "".
Proof.
  apply (clear_code_reads_back_empty
           (example_ui (Some "gsk_test") "print(1)" (Some "Clear Code") "ok")
           (example_ui (Some "gsk_test") "print(1)" None "ok")
           (<["sample_code" := sample_python_class]> ∅)).
  - reflexivity.
  - reflexivity.
Defined.

(** ** Further runs *)

(** X6. A completion without choices makes [choices[0]] fail inside the
    [try]; the failure is reported like a remote fault: the text
    "Error explaining code: list index out of range" is returned. *)
Lemma explain_code_empty_choices c code lang level instruction ss :
  complexity_prompts !! level = Some instruction ->
  c (create_request (render instruction code lang prompt_template))
  = inr {| choices := [] |} ->
  result (explain_code c code lang level ss)
  = Return "Error explaining code: list index out of range".
Proof.
  intros H Hc. rewrite (explain_code_known _ _ _ _ _ _ H). cbv zeta.
  unfold result. simpl. by rewrite Hc.
Qed.

(** With a credential and code, a click on "Explain Code" enters
    [explain_code] once and renders what it returns. *)
Example explain_run :
  trace (main (example_ui (Some "gsk_test") "x = 1" (Some "Explain Code")
                 "It binds x to 1.") ∅)
  = [ st_markdown page_header true; st_markdown "---" false ]
    ++ [ st_header "⚙️ Settings"; st_success "API Key saved!";
         st_markdown "---" false; st_markdown "---" false;
         st_markdown "### 📝 Sample Code" false ]
    ++ [ st_header "📋 Code Input"; st_text_area "";
         st_header "💡 Code Explanation";
         st_spinner "Analyzing your code...";
         call_explain_code "x = 1" "Python" "Beginner";
         chat_completions_create
           (create_request
              (render "Explain this code in very simple terms, as if talking to someone who just started programming. Use everyday language and avoid technical jargon."
                 "x = 1" "Python" prompt_template));
         st_markdown explanation_open true;
         st_markdown "It binds x to 1." false;
         st_markdown "</div>" true;
         st_markdown "---" false; st_markdown page_footer true ].
Proof. vm_compute. reflexivity. Qed.

(** * Further properties of the code *)

(** ** Closed forms *)

Lemma explain_code_run c code lang level ss :
  explain_code c code lang level ss
  = (Return (explanation_text c code lang level), ss,
     outbound_calls code lang level).
Proof.
  unfold explanation_text, outbound_calls.
  destruct (explain_code_cases c code lang level ss)
    as [(instruction & E & ->)|[E ->]]; by rewrite E.
Qed.

Lemma truthy_stored_key ss :
  Py.truthy (stored_key ss) = truthy (ss !! "groq_api_key").
Proof. unfold stored_key, truthy. by destruct (ss !! "groq_api_key"). Qed.

Lemma initialize_groq_client_run ui ss :
  initialize_groq_client ui ss
  = (Return (client_of ui ss), ss, client_errors ui ss).
Proof.
  unfold initialize_groq_client, client_of, client_errors, bind, session_get.
  fold (stored_key ss). cbv zeta.
  destruct (Py.truthy (stored_key ss)); [|done].
  unfold try_except, raise, ret, bind, emit.
  by destruct (Groq ui (stored_key ss)).
Qed.

Lemma explanation_column_run ui code lang level ss :
  explanation_column ui code lang level ss
  = (Return tt, ss, explanation_trace ui code lang level ss).
Proof.
  unfold explanation_column, explanation_trace, when, bind at 1, emit at 1.
  destruct (st_button ui "Explain Code"); [|done].
  destruct (negb (Py.truthy (Py.strip code))); [done|].
  unfold bind at 1, session_get.
  destruct (negb (truthy (ss !! "groq_api_key"))); [done|].
  unfold bind at 1. rewrite initialize_groq_client_run.
  destruct (client_of ui ss) as [c|]; [|unfold emit; simpl; reflexivity].
  unfold bind at 1 2 3, emit at 1 2. rewrite explain_code_run.
  unfold bind, emit. simpl. reflexivity.
Qed.

Lemma sidebar_run_any ui ss :
  sidebar ui ss
  = (Return (chosen_language ui, chosen_level ui),
     load_samples ui (sidebar_store ui ss), sidebar_trace ui).
Proof.
  unfold sidebar, load_samples, sidebar_store, sidebar_trace, when, bind, emit,
    session_set, ret.
  destruct (truthy (secret_GROQ_API_KEY ui));
    destruct (st_button ui "Python List Comprehension");
    destruct (st_button ui "JavaScript Function");
    destruct (st_button ui "Python Class"); reflexivity.
Qed.

(** The whole page, whatever was clicked. *)
Lemma main_unfold ui ss :
  main ui ss
  = let ss1 := load_samples ui (sidebar_store ui ss) in
    let before :=
      [ st_markdown page_header true; st_markdown "---" false ]
      ++ sidebar_trace ui
      ++ [ st_header "📋 Code Input"; st_text_area (code_value ss1) ] in
    if st_button ui "Clear Code" then
      (Raise RerunException, <["sample_code" := ""]> ss1, before)
    else
      (Return tt, ss1,
       before
       ++ explanation_trace ui (text_area ui (code_value ss1))
            (chosen_language ui) (chosen_level ui) ss1
       ++ [ st_markdown "---" false; st_markdown page_footer true ]).
Proof.
  unfold main, bind at 1 2 3 4 5 6. unfold emit at 1 2.
  rewrite sidebar_run_any. cbv zeta.
  destruct (st_button ui "Clear Code") eqn:Hc.
  - rewrite (code_column_clear _ _ Hc). simpl.
    by destruct (truthy (secret_GROQ_API_KEY ui)).
  - rewrite (code_column_run _ _ Hc), explanation_column_run.
    unfold emit, bind. simpl.
    by destruct (truthy (secret_GROQ_API_KEY ui)).
Qed.

Lemma length_append (a b : string) :
  String.length (a +:+ b) = String.length a + String.length b.
Proof.
  induction a as [|x a IH]; [reflexivity|].
  rewrite append_cons. simpl. by rewrite IH.
Qed.

Lemma append_inj_r (a b s : string) : a +:+ s = b +:+ s -> a = b.
Proof.
  revert b. induction a as [|x a IH]; intros [|y b] H.
  - reflexivity.
  - apply (f_equal String.length) in H.
    rewrite !length_append in H. simpl in H. lia.
  - apply (f_equal String.length) in H.
    rewrite !length_append in H. simpl in H. lia.
  - rewrite !append_cons in H. injection H as -> H. f_equal. by apply IH.
Qed.

Lemma append_inj_l (s a b : string) : s +:+ a = s +:+ b -> a = b.
Proof.
  induction s as [|x s IH]; [done|].
  rewrite !append_cons. intros [= H]. by apply IH.
Qed.

Lemma is_space_utf8 (bytes : string) :
  Py.is_space bytes = true ->
  exists cp, Py.isspace cp = true /\ bytes = Py.utf8 cp.
Proof.
  unfold Py.is_space, Py.spaces. intros H.
  apply List.existsb_exists in H as (x & Hx & E).
  apply String.eqb_eq in E. subst x.
  apply List.in_map_iff in Hx as (cp & E & Hcp).
  exists cp. split; [by apply isspace_whitespace|done].
Qed.

Lemma encode_app (cps1 cps2 : list N) :
  Py.encode (cps1 ++ cps2) = Py.encode cps1 +:+ Py.encode cps2.
Proof.
  induction cps1 as [|cp cps1 IH]; [reflexivity|].
  cbn [app Py.encode]. by rewrite IH, append_assoc.
Qed.

(** What [lstrip] drops is whitespace, code point by code point. *)
Lemma lstrip_split (s : string) :
  exists cps,
    Forall (fun cp => Py.isspace cp = true) cps /\
    s = Py.encode cps +:+ Py.lstrip s.
Proof.
  remember (String.length s) as n eqn:Hn. revert s Hn.
  induction n as [n IH] using lt_wf_ind. intros s Hn.
  assert (forall bytes rest,
             Py.is_space bytes = true ->
             String.length rest < n ->
             exists cps,
               Forall (fun cp => Py.isspace cp = true) cps /\
               bytes +:+ rest = Py.encode cps +:+ Py.lstrip rest) as step.
  { intros bytes rest Hb Hlen.
    destruct (is_space_utf8 _ Hb) as (cp & Hcp & ->).
    destruct (IH _ Hlen rest eq_refl) as (cps & Hcps & E).
    exists (cp :: cps). split; [by constructor|].
    cbn [Py.encode]. rewrite append_assoc. by rewrite <- E. }
  destruct s as [|a s1]; [exists []; split; [constructor|reflexivity]|].
  cbn [Py.lstrip].
  destruct (Py.is_space (String a "")) eqn:E1.
  { apply (step (String a "") s1 E1). subst n. simpl. lia. }
  destruct s1 as [|b s2]; [exists []; split; [constructor|reflexivity]|].
  destruct (Py.is_space (String a (String b ""))) eqn:E2.
  { apply (step (String a (String b "")) s2 E2). subst n. simpl. lia. }
  destruct s2 as [|c s3]; [exists []; split; [constructor|reflexivity]|].
  destruct (Py.is_space (String a (String b (String c "")))) eqn:E3.
  { apply (step (String a (String b (String c ""))) s3 E3).
    subst n. simpl. lia. }
  exists []. split; [constructor|reflexivity].
Qed.

Lemma rstrip_empty (s : string) : Py.rstrip s = "" -> Py.lstrip s = "".
Proof.
  destruct s as [|c s]; [done|]. cbn [Py.rstrip].
  by destruct (Py.lstrip (String c s)).
Qed.

Lemma lstrip_blank_inv (s : string) : blank (Py.lstrip s) -> blank s.
Proof.
  intros (cps2 & E & H2). destruct (lstrip_split s) as (cps1 & H1 & Es).
  exists (cps1 ++ cps2). split; [|by apply Forall_app].
  rewrite encode_app, <- E. exact Es.
Qed.

Lemma strip_empty_iff_blank (s : string) : Py.strip s = "" <-> blank s.
Proof.
  split; [|apply strip_blank].
  intros H. apply rstrip_empty in H.
  do 2 apply lstrip_blank_inv. rewrite H.
  exists []. split; [reflexivity|constructor].
Qed.

(** ** [initialize_groq_client] (lines 49-59) *)

(** X1. [initialize_groq_client] never raises and never writes to the
    session store; it shows at most one message, and that message is an
    error. *)
Theorem initialize_groq_client_safe ui ss :
  exists c out,
    initialize_groq_client ui ss = (Return c, ss, out) /\
    length out <= 1 /\
    forall ev, In ev out -> exists msg, ev = st_error msg.
Proof.
  rewrite initialize_groq_client_run.
  exists (client_of ui ss), (client_errors ui ss). split; [done|].
  unfold client_errors.
  destruct (Py.truthy (stored_key ss)); [|simpl; split; [lia|tauto]].
  destruct (Groq ui (stored_key ss)) as [detail|c]; simpl.
  - split; [lia|]. intros ev [<-|[]]. eauto.
  - split; [lia|tauto].
Qed.

(** X2. Without a credential in the session store (no entry, or the
    empty string) [initialize_groq_client] gives no client and shows
    nothing. *)
Theorem initialize_groq_client_no_key ui ss :
  truthy (ss !! "groq_api_key") = false ->
  initialize_groq_client ui ss = (Return None, ss, []).
Proof.
  intros H. rewrite initialize_groq_client_run.
  unfold client_of, client_errors. by rewrite truthy_stored_key, H.
Qed.

Lemma initialize_groq_client_no_key_witness :
  initialize_groq_client (example_ui None "x" None "ok")
    (<["groq_api_key" := ""]> ∅)
  = (Return None, <["groq_api_key" := ""]> ∅, []).
Proof.
  apply (initialize_groq_client_no_key (example_ui None "x" None "ok")
           (<["groq_api_key" := ""]> ∅)).
  reflexivity.
Defined.

(** X3. When the SDK rejects the stored credential at construction, the
    failure is caught: the message "Error initializing Groq client: "
    with the fault's detail is shown and no client is given. *)
Theorem initialize_groq_client_rejected ui ss key detail :
  ss !! "groq_api_key" = Some key ->
  Py.truthy key = true ->
  Groq ui key = inl detail ->
  initialize_groq_client ui ss
  = (Return None, ss,
     [ st_error ("Error initializing Groq client: " +:+ detail) ]).
Proof.
  intros Hk Ht Hg. rewrite initialize_groq_client_run.
  unfold client_of, client_errors, stored_key. rewrite Hk. simpl.
  by rewrite Ht, Hg.
Qed.

Lemma initialize_groq_client_rejected_witness :
  let ui :=
    {| secret_GROQ_API_KEY := None; chosen_language := "Go";
       chosen_level := "Advanced"; clicked := None;
       text_area := fun v => v;
       Groq := fun _ => inl "Illegal header value" |} in
  initialize_groq_client ui (<["groq_api_key" := "bad key"]> ∅)
  = (Return None, <["groq_api_key" := "bad key"]> ∅,
     [ st_error "Error initializing Groq client: Illegal header value" ]).
Proof.
  apply (initialize_groq_client_rejected
           {| secret_GROQ_API_KEY := None; chosen_language := "Go";
              chosen_level := "Advanced"; clicked := None;
              text_area := fun v => v;
              Groq := fun _ => inl "Illegal header value" |}
           (<["groq_api_key" := "bad key"]> ∅) "bad key"
           "Illegal header value").
  - reflexivity.
  - reflexivity.
  - reflexivity.
Defined.

(** X4. With a non-empty credential that the SDK accepts,
    [initialize_groq_client] gives the client built from exactly that
    credential and shows nothing. *)
Theorem initialize_groq_client_accepted ui ss key c :
  ss !! "groq_api_key" = Some key ->
  Py.truthy key = true ->
  Groq ui key = inr c ->
  initialize_groq_client ui ss = (Return (Some c), ss, []).
Proof.
  intros Hk Ht Hg. rewrite initialize_groq_client_run.
  unfold client_of, client_errors, stored_key. rewrite Hk. simpl.
  by rewrite Ht, Hg.
Qed.

Lemma initialize_groq_client_accepted_witness :
  exists c,
    initialize_groq_client (example_ui None "x" None "ok")
      (<["groq_api_key" := "gsk_test"]> ∅)
    = (Return (Some c), <["groq_api_key" := "gsk_test"]> ∅, []).
Proof.
  eexists.
  apply (initialize_groq_client_accepted (example_ui None "x" None "ok")
           (<["groq_api_key" := "gsk_test"]> ∅) "gsk_test").
  - reflexivity.
  - reflexivity.
  - reflexivity.
Defined.

(** ** [explain_code] (lines 61-109) *)

(** X5. [explain_code] neither reads nor writes the session store: the
    store is left as it was, and the returned text and the calls made
    are the same from any store; no run makes more than one call. *)
Theorem explain_code_ignores_store c code lang level ss ss' :
  store (explain_code c code lang level ss) = ss /\
  result (explain_code c code lang level ss)
  = result (explain_code c code lang level ss') /\
  trace (explain_code c code lang level ss)
  = trace (explain_code c code lang level ss') /\
  length (trace (explain_code c code lang level ss)) <= 1.
Proof.
  rewrite !explain_code_run. unfold store, result, trace, outbound_calls. simpl.
  repeat split. destruct (complexity_prompts !! level); simpl; lia.
Qed.

Lemma explain_code_empty_choices_witness :
  result
    (explain_code (fun _ => inr {| choices := [] |}) "x = 1" "Python"
       "Beginner" ∅)
  = Return "Error explaining code: list index out of range".
Proof.
  eapply (explain_code_empty_choices (fun _ => inr {| choices := [] |})
            "x = 1" "Python" "Beginner").
  - reflexivity.
  - reflexivity.
Defined.

(** X7. The prompt keeps the code snippet as it is: two snippets that
    give the same prompt, with the same instruction and language, are
    the same snippet. *)
Theorem prompt_determines_code instruction lang code code' :
  render instruction code lang prompt_template
  = render instruction code' lang prompt_template ->
  code = code'.
Proof.
  unfold render, prompt_template, fill. intros H.
  repeat (apply append_inj_l in H). by apply append_inj_r in H.
Qed.

Lemma prompt_determines_code_witness :
  render "Explain." "x = 1" "Python" prompt_template
  = render "Explain." "x = 1" "Python" prompt_template /\
  "x = 1" = "x = 1".
Proof.
  split; [reflexivity|].
  apply (prompt_determines_code "Explain." "Python" "x = 1" "x = 1").
  reflexivity.
Defined.

(** ** [main] (lines 111-225) *)

Lemma load_samples_none ui ss : no_sample_clicked ui -> load_samples ui ss = ss.
Proof. intros (H1 & H2 & H3). unfold load_samples. by rewrite H1, H2, H3. Qed.

(** The run of "Explain Code" that reaches [explain_code]. *)
Lemma main_explains ui ss key c :
  clicked ui = Some "Explain Code" ->
  Py.strip (text_area ui (code_value ss)) <> "" ->
  sidebar_store ui ss !! "groq_api_key" = Some key ->
  Py.truthy key = true ->
  Groq ui key = inr c ->
  main ui ss
  = (Return tt, sidebar_store ui ss,
     [ st_markdown page_header true; st_markdown "---" false ]
     ++ sidebar_trace ui
     ++ [ st_header "📋 Code Input"; st_text_area (code_value ss);
          st_header "💡 Code Explanation";
          st_spinner "Analyzing your code...";
          call_explain_code (text_area ui (code_value ss))
            (chosen_language ui) (chosen_level ui) ]
     ++ outbound_calls (text_area ui (code_value ss)) (chosen_language ui)
          (chosen_level ui)
     ++ [ st_markdown explanation_open true;
          st_markdown
            (explanation_text c (text_area ui (code_value ss))
               (chosen_language ui) (chosen_level ui)) false;
          st_markdown "</div>" true;
          st_markdown "---" false; st_markdown page_footer true ]).
Proof.
  intros Hclick Hcode Hkey Htruthy Hgroq.
  destruct (explain_clicked _ Hclick) as (Hs & Hc & He).
  rewrite main_unfold. cbv zeta.
  rewrite (load_samples_none _ _ Hs), Hc, code_value_sidebar_store.
  unfold explanation_trace, client_errors, client_of, stored_key.
  rewrite He, Hkey. simpl. rewrite Htruthy, Hgroq.
  destruct (Py.strip (text_area ui (code_value ss))); [done|]. simpl.
  by rewrite <- !app_assoc.
Qed.

Lemma filter_sidebar_trace (f : event -> bool) ui :
  (forall body, f (st_header body) = false) ->
  (forall body, f (st_success body) = false) ->
  (forall body html, f (st_markdown body html) = false) ->
  List.filter f (sidebar_trace ui) = [].
Proof.
  intros Hh Hs Hm. unfold sidebar_trace.
  destruct (truthy (secret_GROQ_API_KEY ui)); simpl; by rewrite ?Hh, ?Hs, ?Hm.
Qed.

Lemma filter_create_outbound code lang level :
  List.filter is_create (outbound_calls code lang level)
  = outbound_calls code lang level.
Proof. unfold outbound_calls. by destruct (complexity_prompts !! level). Qed.

Lemma filter_outbound (f : event -> bool) code lang level :
  (forall req, f (chat_completions_create req) = false) ->
  List.filter f (outbound_calls code lang level) = [].
Proof.
  intros H. unfold outbound_calls.
  destruct (complexity_prompts !! level); simpl; by rewrite ?H.
Qed.

(** X8. With a credential the SDK accepts and code that is not blank, a
    click on "Explain Code" ends normally, enters [explain_code] once
    with the text of the code box and the two selections as they are,
    makes exactly the outbound calls of that invocation, renders the
    returned text between the two container tags and shows no warning
    or error. *)
Theorem explain_renders_answer ui ss key c :
  clicked ui = Some "Explain Code" ->
  Py.strip (text_area ui (code_value ss)) <> "" ->
  sidebar_store ui ss !! "groq_api_key" = Some key ->
  Py.truthy key = true ->
  Groq ui key = inr c ->
  result (main ui ss) = Return tt /\
  List.filter is_explain (trace (main ui ss))
  = [ call_explain_code (text_area ui (code_value ss)) (chosen_language ui)
        (chosen_level ui) ] /\
  List.filter is_create (trace (main ui ss))
  = trace (explain_code c (text_area ui (code_value ss)) (chosen_language ui)
             (chosen_level ui) (sidebar_store ui ss)) /\
  (exists r before after,
      result (explain_code c (text_area ui (code_value ss))
                (chosen_language ui) (chosen_level ui) (sidebar_store ui ss))
      = Return r /\
      trace (main ui ss)
      = before
        ++ [ st_markdown explanation_open true; st_markdown r false;
             st_markdown "</div>" true ]
        ++ after) /\
  List.filter is_alert (trace (main ui ss)) = [].
Proof.
  intros Hclick Hcode Hkey Htruthy Hgroq.
  rewrite (main_explains _ _ _ _ Hclick Hcode Hkey Htruthy Hgroq).
  rewrite explain_code_run. unfold result, trace. cbn [fst snd].
  split; [done|]. split; [|split; [|split]].
  - rewrite !List.filter_app.
    rewrite filter_sidebar_trace by (intros; reflexivity).
    rewrite filter_outbound by (intros; reflexivity).
    reflexivity.
  - rewrite !List.filter_app.
    rewrite filter_sidebar_trace by (intros; reflexivity).
    rewrite filter_create_outbound.
    cbn [List.filter is_create app]. by rewrite app_nil_r.
  - eexists _,
      ([ st_markdown page_header true; st_markdown "---" false ]
       ++ sidebar_trace ui
       ++ [ st_header "📋 Code Input"; st_text_area (code_value ss);
            st_header "💡 Code Explanation";
            st_spinner "Analyzing your code...";
            call_explain_code (text_area ui (code_value ss))
              (chosen_language ui) (chosen_level ui) ]
       ++ outbound_calls (text_area ui (code_value ss)) (chosen_language ui)
            (chosen_level ui)),
      [ st_markdown "---" false; st_markdown page_footer true ].
    split; [reflexivity|]. rewrite <- !app_assoc. reflexivity.
  - rewrite !List.filter_app.
    rewrite filter_sidebar_trace by (intros; reflexivity).
    rewrite filter_outbound by (intros; reflexivity).
    reflexivity.
Qed.

Lemma explain_renders_answer_witness :
  let ui := example_ui None "x = 1" (Some "Explain Code") "It binds x to 1." in
  let ss : session_state := <["groq_api_key" := "gsk_stored"]> ∅ in
  exists c,
    result (main ui ss) = Return tt /\
    List.filter is_explain (trace (main ui ss))
    = [ call_explain_code (text_area ui (code_value ss)) (chosen_language ui)
          (chosen_level ui) ] /\
    List.filter is_create (trace (main ui ss))
    = trace (explain_code c (text_area ui (code_value ss)) (chosen_language ui)
               (chosen_level ui) (sidebar_store ui ss)) /\
    (exists r before after,
        result (explain_code c (text_area ui (code_value ss))
                  (chosen_language ui) (chosen_level ui) (sidebar_store ui ss))
        = Return r /\
        trace (main ui ss)
        = before
          ++ [ st_markdown explanation_open true; st_markdown r false;
               st_markdown "</div>" true ]
          ++ after) /\
    List.filter is_alert (trace (main ui ss)) = [].
Proof.
  cbv zeta. eexists.
  apply (explain_renders_answer
           (example_ui None "x = 1" (Some "Explain Code") "It binds x to 1.")
           (<["groq_api_key" := "gsk_stored"]> ∅) "gsk_stored").
  - reflexivity.
  - discriminate.
  - reflexivity.
  - reflexivity.
  - reflexivity.
Defined.

(** X9. A fault of the remote call is shown as the explanation itself:
    the text "Error explaining code: " with the fault's detail is
    rendered by [st.markdown] between the container tags, the run ends
    normally and neither [st.error] nor [st.warning] is called. *)
Theorem remote_fault_shown_as_explanation ui ss key c instruction detail :
  clicked ui = Some "Explain Code" ->
  Py.strip (text_area ui (code_value ss)) <> "" ->
  sidebar_store ui ss !! "groq_api_key" = Some key ->
  Py.truthy key = true ->
  Groq ui key = inr c ->
  complexity_prompts !! chosen_level ui = Some instruction ->
  c (create_request
       (render instruction (text_area ui (code_value ss)) (chosen_language ui)
          prompt_template))
  = inl detail ->
  result (main ui ss) = Return tt /\
  (exists before after,
      trace (main ui ss)
      = before
        ++ [ st_markdown explanation_open true;
             st_markdown ("Error explaining code: " +:+ detail) false;
             st_markdown "</div>" true ]
        ++ after) /\
  List.filter is_alert (trace (main ui ss)) = [].
Proof.
  intros Hclick Hcode Hkey Htruthy Hgroq Hlevel Hfault.
  rewrite (main_explains _ _ _ _ Hclick Hcode Hkey Htruthy Hgroq).
  unfold result, trace, explanation_text. cbn [fst snd].
  rewrite Hlevel, Hfault. cbn [answer].
  split; [done|]. split.
  - eexists
      ([ st_markdown page_header true; st_markdown "---" false ]
       ++ sidebar_trace ui
       ++ [ st_header "📋 Code Input"; st_text_area (code_value ss);
            st_header "💡 Code Explanation";
            st_spinner "Analyzing your code...";
            call_explain_code (text_area ui (code_value ss))
              (chosen_language ui) (chosen_level ui) ]
       ++ outbound_calls (text_area ui (code_value ss)) (chosen_language ui)
            (chosen_level ui)),
      [ st_markdown "---" false; st_markdown page_footer true ].
    rewrite <- !app_assoc. reflexivity.
  - rewrite !List.filter_app.
    rewrite filter_sidebar_trace by (intros; reflexivity).
    rewrite filter_outbound by (intros; reflexivity).
    reflexivity.
Qed.

Lemma remote_fault_shown_as_explanation_witness :
  let ui :=
    {| secret_GROQ_API_KEY := Some "gsk_test"; chosen_language := "Rust";
       chosen_level := "Advanced"; clicked := Some "Explain Code";
       text_area := fun _ => "fn main() {}";
       Groq := fun _ => inr (fun _ => inl "Connection error.") |} in
  result (main ui ∅) = Return tt /\
  (exists before after,
      trace (main ui ∅)
      = before
        ++ [ st_markdown explanation_open true;
             st_markdown ("Error explaining code: " +:+ "Connection error.")
               false;
             st_markdown "</div>" true ]
        ++ after) /\
  List.filter is_alert (trace (main ui ∅)) = [].
Proof.
  eapply (remote_fault_shown_as_explanation
            {| secret_GROQ_API_KEY := Some "gsk_test"; chosen_language := "Rust";
               chosen_level := "Advanced"; clicked := Some "Explain Code";
               text_area := fun _ => "fn main() {}";
               Groq := fun _ => inr (fun _ => inl "Connection error.") |}
            ∅ "gsk_test").
  - reflexivity.
  - discriminate.
  - reflexivity.
  - reflexivity.
  - reflexivity.
  - reflexivity.
  - reflexivity.
Defined.

(** X10. When the SDK rejects the credential, a click on "Explain Code"
    shows the two errors, first the one of [initialize_groq_client] and
    then "Failed to initialize Groq client...", never enters
    [explain_code], makes no outbound call and ends normally. *)
Theorem rejected_key_blocks_explanation ui ss key detail :
  clicked ui = Some "Explain Code" ->
  Py.strip (text_area ui (code_value ss)) <> "" ->
  sidebar_store ui ss !! "groq_api_key" = Some key ->
  Py.truthy key = true ->
  Groq ui key = inl detail ->
  result (main ui ss) = Return tt /\
  List.filter is_alert (trace (main ui ss))
  = [ st_error ("Error initializing Groq client: " +:+ detail);
      st_error "Failed to initialize Groq client. Please check your API key." ] /\
  List.filter is_explain (trace (main ui ss)) = [] /\
  List.filter is_create (trace (main ui ss)) = [].
Proof.
  intros Hclick Hcode Hkey Htruthy Hgroq.
  destruct (explain_clicked _ Hclick) as (Hs & Hc & He).
  rewrite main_unfold. cbv zeta.
  rewrite (load_samples_none _ _ Hs), Hc, code_value_sidebar_store.
  unfold explanation_trace, client_errors, client_of, stored_key.
  rewrite He, Hkey. simpl default. rewrite Htruthy, Hgroq.
  destruct (Py.strip (text_area ui (code_value ss))); [done|].
  unfold result, trace. cbn [fst snd Py.truthy truthy negb].
  split; [done|].
  rewrite !List.filter_app, !filter_sidebar_trace by (intros; reflexivity).
  rewrite Htruthy. repeat split; reflexivity.
Qed.

Lemma rejected_key_blocks_explanation_witness :
  let ui :=
    {| secret_GROQ_API_KEY := Some "bad key"; chosen_language := "Python";
       chosen_level := "Beginner"; clicked := Some "Explain Code";
       text_area := fun _ => "x = 1";
       Groq := fun _ => inl "Illegal header value" |} in
  result (main ui ∅) = Return tt /\
  List.filter is_alert (trace (main ui ∅))
  = [ st_error ("Error initializing Groq client: " +:+ "Illegal header value");
      st_error "Failed to initialize Groq client. Please check your API key." ] /\
  List.filter is_explain (trace (main ui ∅)) = [] /\
  List.filter is_create (trace (main ui ∅)) = [].
Proof.
  apply (rejected_key_blocks_explanation
           {| secret_GROQ_API_KEY := Some "bad key"; chosen_language := "Python";
              chosen_level := "Beginner"; clicked := Some "Explain Code";
              text_area := fun _ => "x = 1";
              Groq := fun _ => inl "Illegal header value" |}
           ∅ "bad key" "Illegal header value").
  - reflexivity.
  - discriminate.
  - reflexivity.
  - reflexivity.
  - reflexivity.
Defined.

(** X11. A click on a sample button stores that button's snippet under
    ['sample_code'], whatever was stored before, and the text area of
    the same run is already given the snippet; the run ends normally
    without entering [explain_code] and without an outbound call. *)
Theorem sample_button_loads_snippet ui ss label snippet :
  In (label, snippet) samples ->
  clicked ui = Some label ->
  result (main ui ss) = Return tt /\
  store (main ui ss) !! "sample_code" = Some snippet /\
  In (st_text_area snippet) (trace (main ui ss)) /\
  List.filter is_explain (trace (main ui ss)) = [] /\
  List.filter is_create (trace (main ui ss)) = [].
Proof.
  intros Hin Hclick. rewrite main_unfold. cbv zeta.
  assert (st_button ui "Clear Code" = false) as ->.
  { unfold samples in Hin. simpl in Hin.
    destruct Hin as [[= <- <-]|[[= <- <-]|[[= <- <-]|[]]]];
      by apply (st_button_other _ _ _ Hclick). }
  assert (st_button ui "Explain Code" = false) as He.
  { unfold samples in Hin. simpl in Hin.
    destruct Hin as [[= <- <-]|[[= <- <-]|[[= <- <-]|[]]]];
      by apply (st_button_other _ _ _ Hclick). }
  assert (load_samples ui (sidebar_store ui ss) !! "sample_code" = Some snippet)
    as Hload.
  { unfold samples in Hin. simpl in Hin. unfold load_samples.
    destruct Hin as [[= <- <-]|[[= <- <-]|[[= <- <-]|[]]]];
      rewrite (st_button_clicked _ _ Hclick);
      rewrite ?(st_button_other _ _ _ Hclick) by discriminate;
      apply lookup_insert_eq. }
  unfold result, store, trace, explanation_trace, code_value. cbn [fst snd].
  rewrite He, Hload. cbn [default from_option id].
  split; [done|]. split; [done|]. split.
  - apply in_or_app. left. apply in_or_app. right. apply in_or_app. right.
    simpl. tauto.
  - rewrite !List.filter_app, !filter_sidebar_trace by (intros; reflexivity).
    split; reflexivity.
Qed.

Lemma sample_button_loads_snippet_witness :
  let ui := example_ui None "typed" (Some "JavaScript Function") "ok" in
  let ss : session_state := <["sample_code" := sample_python_class]> ∅ in
  result (main ui ss) = Return tt /\
  store (main ui ss) !! "sample_code" = Some sample_javascript_function /\
  In (st_text_area sample_javascript_function) (trace (main ui ss)) /\
  List.filter is_explain (trace (main ui ss)) = [] /\
  List.filter is_create (trace (main ui ss)) = [].
Proof.
  apply (sample_button_loads_snippet
           (example_ui None "typed" (Some "JavaScript Function") "ok")
           (<["sample_code" := sample_python_class]> ∅)
           "JavaScript Function" sample_javascript_function).
  - unfold samples. simpl. tauto.
  - reflexivity.
Defined.

(** X12. A run of the page writes to no entry of the session store
    other than ['groq_api_key'] and ['sample_code']. *)
Theorem main_writes_two_keys ui ss key :
  key <> "groq_api_key" ->
  key <> "sample_code" ->
  store (main ui ss) !! key = ss !! key.
Proof.
  intros Hk Hs. rewrite main_unfold. cbv zeta.
  assert (forall v (m : session_state),
             <["sample_code" := v]> m !! key = m !! key) as Hsample
    by (intros; by apply lookup_insert_ne).
  assert (sidebar_store ui ss !! key = ss !! key) as Hside.
  { unfold sidebar_store. destruct (truthy (secret_GROQ_API_KEY ui)); [|done].
    by apply lookup_insert_ne. }
  assert (load_samples ui (sidebar_store ui ss) !! key = ss !! key) as Hload.
  { unfold load_samples.
    destruct (st_button ui "Python List Comprehension");
      destruct (st_button ui "JavaScript Function");
      destruct (st_button ui "Python Class");
      by rewrite ?Hsample. }
  unfold store.
  destruct (st_button ui "Clear Code"); cbn [fst snd]; by rewrite ?Hsample.
Qed.

Lemma main_writes_two_keys_witness :
  store (main (example_ui (Some "gsk_test") "x" (Some "Clear Code") "ok")
           (<["theme" := "dark"]> ∅)) !! "theme"
  = (<["theme" := "dark"]> ∅ : session_state) !! "theme".
Proof.
  apply (main_writes_two_keys
           (example_ui (Some "gsk_test") "x" (Some "Clear Code") "ok")
           (<["theme" := "dark"]> ∅) "theme").
  - discriminate.
  - discriminate.
Defined.

(** X13. After any run the credential in the session store is the
    secret when the secret source gave a non-empty one, and otherwise
    what it was before the run: a stored credential outlives a run
    without a secret, and a new secret replaces it. *)
Theorem credential_after_run ui ss :
  store (main ui ss) !! "groq_api_key"
  = if truthy (secret_GROQ_API_KEY ui)
    then secret_GROQ_API_KEY ui
    else ss !! "groq_api_key".
Proof.
  rewrite main_unfold. cbv zeta.
  assert (forall v (m : session_state),
             <["sample_code" := v]> m !! "groq_api_key" = m !! "groq_api_key")
    as Hsample by (intros; by apply lookup_insert_ne).
  assert (load_samples ui (sidebar_store ui ss) !! "groq_api_key"
          = sidebar_store ui ss !! "groq_api_key") as Hload.
  { unfold load_samples.
    destruct (st_button ui "Python List Comprehension");
      destruct (st_button ui "JavaScript Function");
      destruct (st_button ui "Python Class");
      by rewrite ?Hsample. }
  unfold store.
  destruct (st_button ui "Clear Code"); cbn [fst snd];
    rewrite ?Hsample, Hload; unfold sidebar_store;
    (destruct (secret_GROQ_API_KEY ui) as [secret|]; [|done]); simpl;
    (destruct (Py.truthy secret); [|done]); apply lookup_insert_eq.
Qed.

(** X14. The only exception that leaves [main] is the rerun request of
    "Clear Code": every other run ends normally. *)
Theorem main_raises_only_rerun ui ss :
  result (main ui ss)
  = if bool_decide (clicked ui = Some "Clear Code")
    then Raise RerunException else Return tt.
Proof.
  rewrite main_unfold. cbv zeta. fold (st_button ui "Clear Code").
  unfold result. by destruct (st_button ui "Clear Code").
Qed.

Lemma explanation_trace_calls ui code lang level ss :
  length (List.filter is_create (explanation_trace ui code lang level ss)) <= 1 /\
  length (List.filter is_explain (explanation_trace ui code lang level ss)) <= 1.
Proof.
  unfold explanation_trace, client_errors, client_of.
  destruct (st_button ui "Explain Code"); [|simpl; lia].
  destruct (negb (Py.truthy (Py.strip code))); [simpl; lia|].
  destruct (negb (truthy (ss !! "groq_api_key"))); [simpl; lia|].
  destruct (Py.truthy (stored_key ss)); [|simpl; lia].
  destruct (Groq ui (stored_key ss)) as [detail|c]; [simpl; lia|].
  cbn [app List.filter is_create is_explain].
  rewrite !List.filter_app, filter_create_outbound.
  rewrite (filter_outbound is_explain) by (intros; reflexivity).
  cbn [app List.filter is_create is_explain length]. rewrite app_nil_r.
  unfold outbound_calls. destruct (complexity_prompts !! level); simpl; lia.
Qed.

(** X15. No run of the page enters [explain_code] more than once or
    makes more than one outbound call, whatever is clicked and whatever
    the toolkit and the SDK hand to the script. *)
Theorem at_most_one_call_per_run ui ss :
  length (List.filter is_explain (trace (main ui ss))) <= 1 /\
  length (List.filter is_create (trace (main ui ss))) <= 1.
Proof.
  rewrite main_unfold. cbv zeta. unfold trace.
  destruct (st_button ui "Clear Code"); cbn [fst snd];
    rewrite !List.filter_app, !filter_sidebar_trace by (intros; reflexivity);
    cbn [app List.filter is_create is_explain length].
  - lia.
  - rewrite !length_app. cbn [length].
    destruct (explanation_trace_calls ui
                (text_area ui (code_value (load_samples ui (sidebar_store ui ss))))
                (chosen_language ui) (chosen_level ui)
                (load_samples ui (sidebar_store ui ss))).
    lia.
Qed.

(** X16. A run that was not started by a click on "Explain Code" never
    enters [explain_code], makes no outbound call and shows neither a
    warning nor an error. *)
Theorem only_explain_button_calls ui ss :
  clicked ui <> Some "Explain Code" ->
  List.filter is_explain (trace (main ui ss)) = [] /\
  List.filter is_create (trace (main ui ss)) = [] /\
  List.filter is_alert (trace (main ui ss)) = [].
Proof.
  intros H.
  assert (st_button ui "Explain Code" = false) as He
    by (unfold st_button; by rewrite bool_decide_eq_false).
  rewrite main_unfold. cbv zeta. unfold trace, explanation_trace. rewrite He.
  destruct (st_button ui "Clear Code"); cbn [fst snd];
    rewrite !List.filter_app, !filter_sidebar_trace by (intros; reflexivity);
    repeat split; reflexivity.
Qed.

Lemma only_explain_button_calls_witness :
  let ui := example_ui (Some "gsk_test") "x = 1" None "ok" in
  List.filter is_explain (trace (main ui ∅)) = [] /\
  List.filter is_create (trace (main ui ∅)) = [] /\
  List.filter is_alert (trace (main ui ∅)) = [].
Proof.
  apply (only_explain_button_calls
           (example_ui (Some "gsk_test") "x = 1" None "ok") ∅).
  discriminate.
Defined.

(** X17. In the run of "Clear Code" the text area is still given the
    value stored before the click; the rerun request then stops the
    script: the run ends in the rerun exception, and neither the header
    of the explanation column nor the footer is rendered, no warning or
    error is shown and no outbound call is made. *)
Theorem clear_run_skips_explanation ui ss :
  clicked ui = Some "Clear Code" ->
  result (main ui ss) = Raise RerunException /\
  In (st_text_area (code_value ss)) (trace (main ui ss)) /\
  ~ In (st_header "💡 Code Explanation") (trace (main ui ss)) /\
  ~ In (st_markdown page_footer true) (trace (main ui ss)) /\
  List.filter is_alert (trace (main ui ss)) = [] /\
  List.filter is_create (trace (main ui ss)) = [].
Proof.
  intros H. rewrite (main_clear _ _ H).
  unfold result, trace, sidebar_trace. cbn [fst snd].
  destruct (truthy (secret_GROQ_API_KEY ui)); cbn [app].
  - split; [done|]. split; [simpl; tauto|].
    split; [intros Hin; members Hin; vm_compute in Hin; discriminate Hin|].
    split; [intros Hin; members Hin; vm_compute in Hin; discriminate Hin|].
    split; reflexivity.
  - split; [done|]. split; [simpl; tauto|].
    split; [intros Hin; members Hin; vm_compute in Hin; discriminate Hin|].
    split; [intros Hin; members Hin; vm_compute in Hin; discriminate Hin|].
    split; reflexivity.
Qed.

Lemma clear_run_skips_explanation_witness :
  let ui := example_ui None "typed" (Some "Clear Code") "ok" in
  let ss : session_state := <["sample_code" := sample_list_comprehension]> ∅ in
  result (main ui ss) = Raise RerunException /\
  In (st_text_area (code_value ss)) (trace (main ui ss)) /\
  ~ In (st_header "💡 Code Explanation") (trace (main ui ss)) /\
  ~ In (st_markdown page_footer true) (trace (main ui ss)) /\
  List.filter is_alert (trace (main ui ss)) = [] /\
  List.filter is_create (trace (main ui ss)) = [].
Proof.
  apply (clear_run_skips_explanation
           (example_ui None "typed" (Some "Clear Code") "ok")
           (<["sample_code" := sample_list_comprehension]> ∅)).
  reflexivity.
Defined.

Lemma explanation_trace_no_warning ui code lang level ss :
  Py.strip code <> "" ->
  List.filter is_warning (explanation_trace ui code lang level ss) = [].
Proof.
  intros H. unfold explanation_trace, client_errors, client_of.
  destruct (st_button ui "Explain Code"); [|done].
  destruct (Py.strip code); [done|]. cbn [Py.truthy negb].
  destruct (negb (truthy (ss !! "groq_api_key"))); [done|].
  destruct (Py.truthy (stored_key ss)); [|done].
  destruct (Groq ui (stored_key ss)) as [detail|c]; [done|].
  cbn [app List.filter is_warning].
  rewrite List.filter_app, filter_outbound by (intros; reflexivity).
  reflexivity.
Qed.

(** X18. After a click on "Explain Code" the warning "Please enter some
    code to explain!" is shown exactly when the text of the code box is
    empty or whitespace only. *)
Theorem warning_iff_blank ui ss :
  clicked ui = Some "Explain Code" ->
  In (st_warning "Please enter some code to explain!") (trace (main ui ss))
  <-> blank (text_area ui (code_value ss)).
Proof.
  intros Hclick. split.
  - intros Hin.
    destruct (decide (Py.strip (text_area ui (code_value ss)) = ""))
      as [Hblank|Hcode]; [by apply strip_empty_iff_blank|].
    exfalso.
    destruct (explain_clicked _ Hclick) as (Hs & Hc & He).
    rewrite main_unfold in Hin. cbv zeta in Hin.
    rewrite (load_samples_none _ _ Hs), Hc, code_value_sidebar_store in Hin.
    unfold trace in Hin. cbn [snd] in Hin.
    assert (In (st_warning "Please enter some code to explain!") []) as [].
    rewrite <- (explanation_trace_no_warning ui
                  (text_area ui (code_value ss)) (chosen_language ui)
                  (chosen_level ui) (sidebar_store ui ss) Hcode).
    apply List.filter_In. split; [|reflexivity].
    apply in_app_or in Hin as [Hin|Hin].
    + exfalso. apply in_app_or in Hin as [Hin|Hin]; [members Hin|].
      apply in_app_or in Hin as [Hin|Hin]; [|members Hin].
      unfold sidebar_trace in Hin.
      destruct (truthy (secret_GROQ_API_KEY ui)); members Hin.
    + apply in_app_or in Hin as [Hin|Hin]; [done|]. members Hin.
  - intros Hblank.
    destruct (explain_clicked _ Hclick) as (Hs & Hc & He).
    rewrite (main_run _ _ Hs Hc). cbv zeta.
    rewrite (explanation_column_blank _ _ _ _ _ He (strip_blank _ Hblank)).
    unfold trace. cbn [snd].
    apply in_or_app. right. simpl. tauto.
Qed.

Lemma warning_iff_blank_witness :
  let ui :=
    example_ui (Some "gsk_test") (Py.encode [0xA0; 0x2003]%N)
      (Some "Explain Code") "ok" in
  In (st_warning "Please enter some code to explain!") (trace (main ui ∅))
  <-> blank (text_area ui (code_value ∅)).
Proof.
  apply (warning_iff_blank
           (example_ui (Some "gsk_test") (Py.encode [0xA0; 0x2003]%N)
              (Some "Explain Code") "ok") ∅).
  reflexivity.
Defined.

Lemma main_store ui ss :
  store (main ui ss)
  = if st_button ui "Clear Code"
    then <["sample_code" := ""]> (load_samples ui (sidebar_store ui ss))
    else load_samples ui (sidebar_store ui ss).
Proof.
  rewrite main_unfold. cbv zeta. unfold store.
  by destruct (st_button ui "Clear Code").
Qed.

(** X19. What a run writes to the session store does not depend on how
    often it is repeated: running the page again with the same inputs
    leaves the store of the first run as it is. *)
Theorem main_store_idempotent ui ss :
  store (main ui (store (main ui ss))) = store (main ui ss).
Proof.
  rewrite !main_store. unfold load_samples, sidebar_store.
  apply map_eq. intros k.
  destruct (st_button ui "Clear Code");
    destruct (st_button ui "Python List Comprehension");
    destruct (st_button ui "JavaScript Function");
    destruct (st_button ui "Python Class");
    destruct (truthy (secret_GROQ_API_KEY ui));
    repeat (rewrite lookup_insert; case_decide; try done); congruence.
Qed.

(** X20. With a level of the select box, an explaining run makes
    exactly one outbound call, and its user message is the prompt built
    from that level's instruction, the text of the code box and the
    chosen language. *)
Theorem explain_run_sends_prompt ui ss key c :
  clicked ui = Some "Explain Code" ->
  Py.strip (text_area ui (code_value ss)) <> "" ->
  sidebar_store ui ss !! "groq_api_key" = Some key ->
  Py.truthy key = true ->
  Groq ui key = inr c ->
  In (chosen_level ui) levels ->
  exists instruction,
    complexity_prompts !! chosen_level ui = Some instruction /\
    List.filter is_create (trace (main ui ss))
    = [ chat_completions_create
          {| messages :=
               [ system_message;
                 {| role := "user";
                    content :=
                      render instruction (text_area ui (code_value ss))
                        (chosen_language ui) prompt_template |} ];
             model := "llama3-8b-8192";
             temperature := (3 # 10)%Q;
             max_tokens := 1500 |} ].
Proof.
  intros Hclick Hcode Hkey Htruthy Hgroq Hlevel.
  destruct (complexity_prompts_level _ Hlevel) as [instruction E].
  exists instruction. split; [done|].
  rewrite (main_explains _ _ _ _ Hclick Hcode Hkey Htruthy Hgroq).
  unfold trace. cbn [snd].
  rewrite !List.filter_app.
  rewrite filter_sidebar_trace by (intros; reflexivity).
  rewrite filter_create_outbound. unfold outbound_calls. rewrite E.
  reflexivity.
Qed.

Lemma explain_run_sends_prompt_witness :
  let ui := example_ui (Some "gsk_test") "x = 1" (Some "Explain Code") "ok" in
  exists instruction,
    complexity_prompts !! chosen_level ui = Some instruction /\
    List.filter is_create (trace (main ui ∅))
    = [ chat_completions_create
          {| messages :=
               [ system_message;
                 {| role := "user";
                    content :=
                      render instruction (text_area ui (code_value ∅))
                        (chosen_language ui) prompt_template |} ];
             model := "llama3-8b-8192";
             temperature := (3 # 10)%Q;
             max_tokens := 1500 |} ].
Proof.
  eapply (explain_run_sends_prompt
            (example_ui (Some "gsk_test") "x = 1" (Some "Explain Code") "ok")
            ∅ "gsk_test").
  - reflexivity.
  - discriminate.
  - reflexivity.
  - reflexivity.
  - reflexivity.
  - unfold levels. simpl. tauto.
Defined.

Lemma samples_not_blank label snippet :
  In (label, snippet) samples -> Py.strip snippet <> "".
Proof.
  unfold samples. simpl.
  intros [[= <- <-]|[[= <- <-]|[[= <- <-]|[]]]]; vm_compute; discriminate.
Qed.

Lemma sample_click_store ui ss label snippet :
  In (label, snippet) samples ->
  clicked ui = Some label ->
  code_value (store (main ui ss)) = snippet.
Proof.
  intros Hin Hclick. rewrite main_store.
  assert (st_button ui "Clear Code" = false) as ->.
  { unfold samples in Hin. simpl in Hin.
    destruct Hin as [[= <- <-]|[[= <- <-]|[[= <- <-]|[]]]];
      by apply (st_button_other _ _ _ Hclick). }
  unfold samples in Hin. simpl in Hin. unfold load_samples, code_value.
  destruct Hin as [[= <- <-]|[[= <- <-]|[[= <- <-]|[]]]];
    rewrite (st_button_clicked _ _ Hclick);
    rewrite ?(st_button_other _ _ _ Hclick) by discriminate;
    by rewrite lookup_insert_eq.
Qed.

(** X21. Loading a sample and then explaining: when a sample button was
    clicked in one run and "Explain Code" in the next, with a text area
    that shows the value it is given and a credential the SDK accepts,
    [explain_code] is entered once, on that sample's snippet. *)
Theorem sample_then_explain ui1 ui2 ss label snippet key c :
  In (label, snippet) samples ->
  clicked ui1 = Some label ->
  clicked ui2 = Some "Explain Code" ->
  text_area ui2 snippet = snippet ->
  sidebar_store ui2 (store (main ui1 ss)) !! "groq_api_key" = Some key ->
  Py.truthy key = true ->
  Groq ui2 key = inr c ->
  List.filter is_explain (trace (main ui2 (store (main ui1 ss))))
  = [ call_explain_code snippet (chosen_language ui2) (chosen_level ui2) ].
Proof.
  intros Hin Hclick1 Hclick2 Hshow Hkey Htruthy Hgroq.
  pose proof (sample_click_store ui1 ss _ _ Hin Hclick1) as Hvalue.
  assert (Py.strip (text_area ui2 (code_value (store (main ui1 ss)))) <> "")
    as Hcode by (rewrite Hvalue, Hshow; by apply (samples_not_blank label)).
  rewrite (main_explains _ _ _ _ Hclick2 Hcode Hkey Htruthy Hgroq).
  unfold trace. cbn [snd]. rewrite Hvalue, Hshow.
  rewrite !List.filter_app.
  rewrite filter_sidebar_trace by (intros; reflexivity).
  rewrite filter_outbound by (intros; reflexivity).
  reflexivity.
Qed.

Lemma sample_then_explain_witness :
  let ui1 :=
    {| secret_GROQ_API_KEY := Some "gsk_test"; chosen_language := "Python";
       chosen_level := "Intermediate"; clicked := Some "Python Class";
       text_area := fun v => v;
       Groq := fun _ => inr (fun _ => inl "down") |} in
  let ui2 :=
    {| secret_GROQ_API_KEY := Some "gsk_test"; chosen_language := "Python";
       chosen_level := "Intermediate"; clicked := Some "Explain Code";
       text_area := fun v => v;
       Groq := fun _ => inr (fun _ => inl "down") |} in
  List.filter is_explain (trace (main ui2 (store (main ui1 ∅))))
  = [ call_explain_code sample_python_class "Python" "Intermediate" ].
Proof.
  eapply (sample_then_explain
            {| secret_GROQ_API_KEY := Some "gsk_test"; chosen_language := "Python";
               chosen_level := "Intermediate"; clicked := Some "Python Class";
               text_area := fun v => v;
               Groq := fun _ => inr (fun _ => inl "down") |}
            {| secret_GROQ_API_KEY := Some "gsk_test"; chosen_language := "Python";
               chosen_level := "Intermediate"; clicked := Some "Explain Code";
               text_area := fun v => v;
               Groq := fun _ => inr (fun _ => inl "down") |}
            ∅ "Python Class" sample_python_class "gsk_test").
  - unfold samples. simpl. tauto.
  - reflexivity.
  - reflexivity.
  - reflexivity.
  - reflexivity.
  - reflexivity.
  - reflexivity.
Defined.
